(** * Flight attribute derivation rules (analysis/flight_attribute.py)

    A shallow embedding of the [derive] procedures of the flight attribute
    nodes, and the properties of the derivation logic proved about them.

    Conventions of the embedding.
    - Sample indices and KPV values are integers ([Z]); the docstrings of
      [_get_lat_lon] and [_get_hdg] give [int] as the type of the values.
    - A dependency of a rule that is not available is bound to [None]:
      dependencies the code tests for truth before use are [option]s.
    - A [derive] procedure is a computation in the monad [M]: it produces the
      trace of its effects ([set_flight_attr], [logging] and the calls of the
      API handler) and either returns or raises an exception. *)

From Stdlib Require Import ZArith List String Bool QArith Lia.
Import ListNotations.

Local Open Scope string_scope.
Local Open Scope list_scope.
Local Open Scope Z_scope.

(** ** Python values *)

Module Py.

(** The truth value of an object, as [if x:], [not x], [x and y] test it. *)
Class Truth (A : Type) := truth : A -> bool.

#[global] Instance truth_bool : Truth bool := fun b => b.
(** A number is true when it is not zero. *)
#[global] Instance truth_int : Truth Z := fun z => negb (z =? 0).
(** A string is true when it is not empty. *)
#[global] Instance truth_str : Truth string :=
  fun s => match s with EmptyString => false | String _ _ => true end.
(** A list is true when it is not empty. *)
#[global] Instance truth_list {A} : Truth (list A) :=
  fun l => match l with [] => false | _ :: _ => true end.
(** [None] is false; any other value has its own truth value. *)
#[global] Instance truth_option {A} `{Truth A} : Truth (option A) :=
  fun o => match o with None => false | Some a => truth a end.

(** The exceptions the rules can meet. [NotFoundError] is the one the API
    handler raises when a lookup finds nothing. *)
Inductive exn : Type :=
| NotFoundError
| TypeError
| IndexError
| AttributeError
| ValueError.

Definition exn_eqb (a b : exn) : bool :=
  match a, b with
  | NotFoundError, NotFoundError
  | TypeError, TypeError
  | IndexError, IndexError
  | AttributeError, AttributeError
  | ValueError, ValueError => true
  | _, _ => false
  end.

(** [slice(start, stop)]: the interval of a section, in sample indices. *)
Record slice : Type := { start : Z; stop : Z }.

(** [l[i]]: a negative index counts from the end, an index out of range
    raises [IndexError]. *)
Definition getitem {A} (l : list A) (i : Z) : exn + A :=
  let len := Z.of_nat (List.length l) in
  let j := if i <? 0 then i + len else i in
  if (0 <=? j) && (j <? len) then
    match nth_error l (Z.to_nat j) with
    | Some a => inr a
    | None => inl IndexError
    end
  else inl IndexError.

(** A bound of [l[start:stop]]: negative bounds count from the end, and
    every bound is clipped to the sequence. *)
Definition slice_bound (len i : Z) : Z :=
  if i <? 0 then Z.max (i + len) 0 else Z.min i len.

(** [l[s]] for a slice [s] without step. *)
Definition getslice {A} (l : list A) (s : slice) : list A :=
  let len := Z.of_nat (List.length l) in
  let lo := slice_bound len (start s) in
  let hi := slice_bound len (stop s) in
  firstn (Z.to_nat (hi - lo)) (skipn (Z.to_nat lo) l).

Definition maximum (l : list Z) (d : Z) : Z := fold_right Z.max d l.
Definition minimum (l : list Z) (d : Z) : Z := fold_right Z.min d l.

(** [a.ptp()]: the peak to peak range of an array; the reduction has no
    value on an empty array and raises [ValueError]. *)
Definition ptp (a : list Z) : exn + Z :=
  match a with
  | [] => inl ValueError
  | x :: r => inr (maximum r x - minimum r x)
  end.

(** Keyword arguments: the keys that were set, with their values. *)
Definition kwargs : Type := list (string * option Z).

(** [d[k] = v] on a dict, and [d.update(k=v)]. *)
Definition setitem (d : kwargs) (k : string) (v : option Z) : kwargs :=
  (k, v) :: filter (fun kv => negb (String.eqb (fst kv) k)) d.

End Py.
Export Py.

(** ** Effects of a rule *)

Module Effect.

Inductive level : Type := WARNING | INFO.

(** The lookups of the API handler. *)
Inductive api_call : Type :=
| nearest_airport_call (latitude longitude : Z)
| nearest_runway_call (airport_id heading : Z) (kw : kwargs).

(** What a rule does besides computing: it commits a value of the flight
    attribute, writes to the log, or queries the API handler. *)
Inductive event (V : Type) : Type :=
| Commit (v : V)
| Logged (l : level)
| Called (c : api_call).
Arguments Commit {V} v.
Arguments Logged {V} l.
Arguments Called {V} c.

(** A computation of a rule whose attribute has values in [V]: the trace of
    its events, and its result or the exception it raised. *)
Definition M (V A : Type) : Type := list (event V) * (exn + A).

Definition ret {V A} (a : A) : M V A := ([], inr a).

Definition bind {V A B} (m : M V A) (k : A -> M V B) : M V B :=
  match m with
  | (t, inl e) => (t, inl e)
  | (t, inr a) => let (t', r) := k a in (t ++ t', r)
  end.

Definition raise {V A} (e : exn) : M V A := ([], inl e).

(** A pure operation that returns or raises. *)
Definition lift {V A} (r : exn + A) : M V A := ([], r).

(** Modelled from the spec: [self.set_flight_attr(v)] of the class
    [FlightAttributeNode] (analysis/node.py, not part of the sources)
    commits [v] as the value of the flight attribute of the rule. *)
Definition set_flight_attr {V} (v : V) : M V unit := ([Commit v], inr tt).

(** [logging.warning(...)] and [logging.info(...)]. *)
Definition logging_warning {V} : M V unit := ([Logged WARNING], inr tt).
Definition logging_info {V} : M V unit := ([Logged INFO], inr tt).

(** [x.attribute] on a value that may be [None]: [None] has no attribute. *)
Definition deref {V A} (o : option A) : M V A :=
  match o with
  | Some a => ret a
  | None => raise AttributeError
  end.

(** [try: body / except e: handler / else: orelse]. The handler runs when
    the body raises [e]; any other exception goes on to the caller; the
    [else] part runs after a body that did not raise, and is not covered by
    the handler. *)
Definition try_except_else {V A B} (body : M V A) (e : exn)
    (handler : M V B) (orelse : A -> M V B) : M V B :=
  match body with
  | (t, inl e') =>
      if exn_eqb e' e then let (t', r) := handler in (t ++ t', r)
      else (t, inl e')
  | (t, inr a) => let (t', r) := orelse a in (t ++ t', r)
  end.

(** [try: body / except e: handler], whose value is used afterwards. *)
Definition try_except {V A} (body : M V A) (e : exn) (handler : M V A) : M V A :=
  try_except_else body e handler ret.

Definition trace {V A} (m : M V A) : list (event V) := fst m.
Definition outcome {V A} (m : M V A) : exn + A := snd m.

(** The values committed by a trace, in order. *)
Fixpoint commits {V} (t : list (event V)) : list V :=
  match t with
  | [] => []
  | Commit v :: r => v :: commits r
  | _ :: r => commits r
  end.

(** The API lookups of a trace, in order. *)
Fixpoint calls {V} (t : list (event V)) : list api_call :=
  match t with
  | [] => []
  | Called c :: r => c :: calls r
  | _ :: r => calls r
  end.

(** The levels of the log records of a trace, in order. *)
Fixpoint logged {V} (t : list (event V)) : list level :=
  match t with
  | [] => []
  | Logged l :: r => l :: logged r
  | _ :: r => logged r
  end.

(** The attribute of a node after a run: the last value committed, or the
    value [old] it had before when nothing was committed. *)
Definition flight_attr {V} (old : option V) (t : list (event V)) : option V :=
  fold_left (fun acc v => Some v) (commits t) old.

End Effect.
Export Effect.

Declare Scope py_scope.
Delimit Scope py_scope with py.
Notation "x <- m ;; k" := (bind m (fun x => k))
  (at level 61, m at next level, right associativity) : py_scope.
Notation "m ;;; k" := (bind m (fun _ => k))
  (at level 61, right associativity) : py_scope.
Local Open Scope py_scope.

(** ** Nodes: the inputs of the rules (analysis/node.py) *)

Module Node.

(** [KeyPointValue = namedtuple('KeyPointValue', 'index value name')]. *)
Record KeyPointValue : Type :=
  { kpv_index : Z; kpv_value : Z; kpv_name : string }.

(** A key time instance: an index without a value. *)
Record KeyTimeInstance : Type :=
  { kti_index : Z; kti_name : string }.

(** [Section = namedtuple('Section', 'name slice')], an interval of the
    flight. *)
Record SectionItem : Type :=
  { section_name : string; section_slice : slice }.

(** [Attribute]: a name and a value. *)
Record Attr (T : Type) : Type :=
  { attr_name : string; attr_value : T }.
Arguments attr_name {T} _.
Arguments attr_value {T} _.

(** [Parameter]: a sampled signal. *)
Record Param : Type :=
  { param_name : string; hz : Q; array : list Z }.

(** The position of an item in the flight and the name it carries. Sections
    are ordered by the start of their slice. *)
Class Item (A : Type) := { index : A -> Z; item_name : A -> string }.

#[global] Instance item_kpv : Item KeyPointValue :=
  {| index := kpv_index; item_name := kpv_name |}.
#[global] Instance item_kti : Item KeyTimeInstance :=
  {| index := kti_index; item_name := kti_name |}.
#[global] Instance item_section : Item SectionItem :=
  {| index := fun s => start (section_slice s); item_name := section_name |}.

(** Named tuples with fields, attributes and parameters are objects without
    a length: they are always true. *)
#[global] Instance truth_kpv : Truth KeyPointValue := fun _ => true.
#[global] Instance truth_kti : Truth KeyTimeInstance := fun _ => true.
#[global] Instance truth_section : Truth SectionItem := fun _ => true.
#[global] Instance truth_attribute {T} : Truth (Attr T) := fun _ => true.
#[global] Instance truth_parameter : Truth Param := fun _ => true.

(** A node of key point values, key time instances or sections: a list of
    items with a name and a frequency. *)
Record node (A : Type) : Type :=
  { name : string; frequency : Q; items : list A }.
Arguments name {A} _.
Arguments frequency {A} _.
Arguments items {A} _.

(** Modelled from the spec: the truth value of a node, whose class
    (analysis/node.py) is not part of the sources. A node is a collection
    of items, and the spec has an empty collection count as absent: a node
    is true when it has an item. *)
#[global] Instance truth_node {A} : Truth (node A) := fun n => truth (items n).

(** Modelled from the spec: membership of an index in the interval of a
    section, part of the query surface of the input registries
    (analysis/node.py, not part of the sources). The spec gives an interval
    as [[start, stop)] in sample-index space. *)
Definition is_index_within_slice (i : Z) (s : slice) : bool :=
  (start s <=? i) && (i <? stop s).

(** Modelled from the spec: the filter of a query, by interval and by name,
    each optional ([get(name, within_interval?)]; analysis/node.py is not
    part of the sources). *)
Definition matching {A} `{Item A} (within_slice : option slice)
    (nm : option string) (a : A) : bool :=
  match within_slice with
  | Some s => is_index_within_slice (index a) s
  | None => true
  end &&
  match nm with
  | Some n => String.eqb (item_name a) n
  | None => true
  end.

(** Modelled from the spec: [node.get(within_slice=.., name=..)], the list
    of the matches of a query, in the order of the node (analysis/node.py
    is not part of the sources). *)
Definition get {A} `{Item A} (n : node A) (within_slice : option slice)
    (nm : option string) : list A :=
  filter (matching within_slice nm) (items n).

(** The item of least index, the earliest in the list among equals. *)
Fixpoint earliest {A} `{Item A} (l : list A) : option A :=
  match l with
  | [] => None
  | a :: r =>
      match earliest r with
      | None => Some a
      | Some b => if index a <=? index b then Some a else Some b
      end
  end.

(** The item of greatest index, the earliest in the list among equals. *)
Fixpoint latest {A} `{Item A} (l : list A) : option A :=
  match l with
  | [] => None
  | a :: r =>
      match latest r with
      | None => Some a
      | Some b => if index b <=? index a then Some a else Some b
      end
  end.

(** Modelled from the spec: [node.get_first(..)], the first match of a
    query, or [None] (analysis/node.py is not part of the sources). *)
Definition get_first {A} `{Item A} (n : node A) (within_slice : option slice)
    (nm : option string) : option A :=
  earliest (get n within_slice nm).

(** Modelled from the spec: [node.get_last(..)], the last match of a
    query, or [None] (analysis/node.py is not part of the sources). *)
Definition get_last {A} `{Item A} (n : node A) (within_slice : option slice)
    (nm : option string) : option A :=
  latest (get n within_slice nm).

(** [len(l)]. *)
Definition len {A} (l : list A) : Z := Z.of_nat (List.length l).

End Node.
Export Node.

(** ** The API handler (analysis/api_handler.py) *)

Module Api.

(** The airport and runway records of the lookup service, with the keys the
    rules read. *)
Record airport_info : Type :=
  { airport_id : Z; airport_name : string }.

Record runway_info : Type :=
  { runway_id : Z; identifier : string; magnetic_heading : Z }.

(** The handler [get_api_handler()] returns: each lookup returns a record or
    raises. *)
Record api_handler : Type :=
  { nearest_airport : Z -> Z -> exn + airport_info;
    nearest_runway : Z -> Z -> kwargs -> exn + runway_info }.

(** [api_handler.get_nearest_airport(lat, lon)]. *)
Definition get_nearest_airport {V} (api : api_handler) (lat lon : Z)
    : M V airport_info :=
  ([Called (nearest_airport_call lat lon)], nearest_airport api lat lon).

(** [api_handler.get_nearest_runway(airport_id, hdg, **kwargs)]. *)
Definition get_nearest_runway {V} (api : api_handler) (id hdg : Z)
    (kw : kwargs) : M V runway_info :=
  ([Called (nearest_runway_call id hdg kw)], nearest_runway api id hdg kw).

End Api.
Export Api.

(** ** Dates and times *)

(** A [datetime]: a point in time, counted in microseconds. A [timedelta]:
    the difference of two, in microseconds. A [datetime] is always true. *)
Record datetime : Type := { timestamp : Z }.
Record timedelta : Type := { microseconds : Z }.

#[global] Instance truth_datetime : Truth datetime := fun _ => true.

(** [a - b] on datetimes. *)
Definition datetime_sub (a b : datetime) : timedelta :=
  {| microseconds := timestamp a - timestamp b |}.

(** [td.total_seconds()]: the microseconds of [td] over [10**6], as an exact
    fraction (the rounding to a float is not modelled). *)
Definition total_seconds (td : timedelta) : Q :=
  Qmake (microseconds td) 1000000.

(** [datetime_of_index(start_datetime, index, frequency)] of
    analysis/library.py is an argument of the rules that use it. *)
Definition datetime_of_index_t : Type := datetime -> Z -> Q -> datetime.

(** A dependency that may be [None]: [if dep: body(dep)], with [orelse] as
    what follows when the test fails. *)
Definition if_dep {A R} `{Truth A} (dep : option A) (body : A -> R)
    (orelse : R) : R :=
  match dep with
  | Some d => if truth d then body d else orelse
  | None => orelse
  end.

(** ** class Approaches *)

Module Approaches.

(** An element of the list the rule commits:
    [{'airport': .., 'runway': .., 'type': .., 'datetime': ..}]. *)
Record approach_record : Type :=
  { airport : Z; runway : option string; type : string;
    approach_datetime : datetime }.

Definition V : Type := list approach_record.

(** [_get_approach_type]: each [if] block returns its type when exactly one
    item of its node lies within the slice, and falls to the next block
    otherwise. *)
Definition _get_approach_type (approach_slice : slice)
    (landing_hdg_kpvs : option (node KeyPointValue))
    (touch_and_gos go_arounds : option (node KeyTimeInstance))
    : option string :=
  let block3 :=
    if_dep go_arounds
      (fun n =>
         let approach_go_arounds := get n (Some approach_slice) None in
         if len approach_go_arounds =? 1 then Some "GO_AROUND" else None)
      None in
  let block2 :=
    if_dep touch_and_gos
      (fun n =>
         let approach_touch_and_gos := get n (Some approach_slice) None in
         if len approach_touch_and_gos =? 1 then Some "TOUCH_AND_GO"
         else block3)
      block3 in
  if_dep landing_hdg_kpvs
    (fun n =>
       let hdg_kpvs := get n (Some approach_slice) None in
       if len hdg_kpvs =? 1 then Some "LANDING" else block2)
    block2.

(** The second block of [_get_lat_lon], on the approach KPVs. *)
Definition _get_lat_lon_approach (approach_slice : slice)
    (approach_lat_kpvs approach_lon_kpvs : option (node KeyPointValue))
    : option Z * option Z :=
  if_dep approach_lat_kpvs
    (fun lat_n =>
       if_dep approach_lon_kpvs
         (fun lon_n =>
            let lat_kpvs := get lat_n (Some approach_slice) None in
            let lon_kpvs := get lon_n (Some approach_slice) None in
            if (len lat_kpvs =? 1) && (len lon_kpvs =? 1) then
              match lat_kpvs, lon_kpvs with
              | lat0 :: _, lon0 :: _ =>
                  (Some (kpv_value lat0), Some (kpv_value lon0))
              | _, _ => (None, None)
              end
            else (None, None))
         (None, None))
    (None, None).

(** [_get_lat_lon]: the landing KPVs first, then the approach KPVs. *)
Definition _get_lat_lon (approach_slice : slice)
    (landing_lat_kpvs landing_lon_kpvs
     approach_lat_kpvs approach_lon_kpvs : option (node KeyPointValue))
    : option Z * option Z :=
  let block2 :=
    _get_lat_lon_approach approach_slice approach_lat_kpvs approach_lon_kpvs in
  if_dep landing_lat_kpvs
    (fun lat_n =>
       if_dep landing_lon_kpvs
         (fun lon_n =>
            let lat_kpvs := get lat_n (Some approach_slice) None in
            let lon_kpvs := get lon_n (Some approach_slice) None in
            if (len lat_kpvs =? 1) && (len lon_kpvs =? 1) then
              match lat_kpvs, lon_kpvs with
              | lat0 :: _, lon0 :: _ =>
                  (Some (kpv_value lat0), Some (kpv_value lon0))
              | _, _ => block2
              end
            else block2)
         block2)
    block2.

(** [_get_hdg]: the landing heading first, then the approach heading. *)
Definition _get_hdg (approach_slice : slice)
    (landing_hdg_kpvs approach_hdg_kpvs : option (node KeyPointValue))
    : option Z :=
  let block2 :=
    if_dep approach_hdg_kpvs
      (fun n =>
         let hdg_kpvs := get n (Some approach_slice) None in
         if len hdg_kpvs =? 1 then
           match hdg_kpvs with
           | hdg0 :: _ => Some (kpv_value hdg0)
           | [] => None
           end
         else None)
      None in
  if_dep landing_hdg_kpvs
    (fun n =>
       let hdg_kpvs := get n (Some approach_slice) None in
       if len hdg_kpvs =? 1 then
         match hdg_kpvs with
         | hdg0 :: _ => Some (kpv_value hdg0)
         | [] => block2
         end
       else block2)
    block2.

(** The inputs of [derive]. The availability test of the rule requires the
    start datetime and the approach sections; the other nodes are tested
    for truth where they are used. *)
Record inputs : Type :=
  { start_datetime : Attr datetime;
    approach_and_landing : node SectionItem;
    landing_hdg_kpvs : option (node KeyPointValue);
    touch_and_gos : option (node KeyTimeInstance);
    go_arounds : option (node KeyTimeInstance);
    landing_lat_kpvs : option (node KeyPointValue);
    landing_lon_kpvs : option (node KeyPointValue);
    approach_lat_kpvs : option (node KeyPointValue);
    approach_lon_kpvs : option (node KeyPointValue);
    approach_hdg_kpvs : option (node KeyPointValue);
    approach_ilsfreq_kpvs : option (node KeyPointValue);
    precision : option (Attr bool) }.

(** The keyword arguments of the runway lookup. *)
Definition runway_kwargs (i : inputs) (approach : SectionItem) (lat lon : Z)
    : kwargs :=
  let kw := [] in
  let kw :=
    if_dep (approach_ilsfreq_kpvs i)
      (fun n =>
         let ilsfreq_kpvs := get n (Some (section_slice approach)) None in
         if len ilsfreq_kpvs =? 1 then
           match ilsfreq_kpvs with
           | k :: _ => setitem kw "ilsfreq" (Some (kpv_value k))
           | [] => kw
           end
         else kw)
      kw in
  match precision i with
  | Some p =>
      if truth p && truth (attr_value p) then
        setitem (setitem kw "latitude" (Some lat)) "longitude" (Some lon)
      else kw
  | None => kw
  end.

(** The body of the loop of [derive] for one approach: it returns the list
    [approaches], with a record appended unless the iteration ends at a
    [continue]. [not lat or not lon] and [not hdg] hold of [None] and of 0. *)
Definition derive_body (api : api_handler)
    (datetime_of_index : datetime_of_index_t) (i : inputs)
    (approaches : V) (approach : SectionItem) : M V V :=
  let approach_datetime :=
    datetime_of_index (attr_value (start_datetime i))
      (stop (section_slice approach)) (frequency (approach_and_landing i)) in
  let approach_type :=
    _get_approach_type (section_slice approach) (landing_hdg_kpvs i)
      (touch_and_gos i) (go_arounds i) in
  match approach_type with
  | None => logging_warning ;;; ret approaches
  | Some approach_type =>
    if negb (truth approach_type) then logging_warning ;;; ret approaches
    else
    let '(lat, lon) :=
      _get_lat_lon (section_slice approach) (landing_lat_kpvs i)
        (landing_lon_kpvs i) (approach_lat_kpvs i) (approach_lon_kpvs i) in
    match lat, lon with
    | Some lat, Some lon =>
      if negb (truth lat) || negb (truth lon) then
        logging_warning ;;; ret approaches
      else
      try_except_else (get_nearest_airport api lat lon) NotFoundError
        (logging_warning ;;; ret approaches)
        (fun airport =>
           let airport_id := airport_id airport in
           let hdg :=
             _get_hdg (section_slice approach) (landing_hdg_kpvs i)
               (approach_hdg_kpvs i) in
           let without_runway :=
             logging_info ;;;
             ret (approaches ++
                  [{| airport := airport_id; runway := None;
                      type := approach_type;
                      approach_datetime := approach_datetime |}]) in
           match hdg with
           | None => without_runway
           | Some hdg =>
             if negb (truth hdg) then without_runway
             else
             let kw := runway_kwargs i approach lat lon in
             runway_ident <-
               try_except
                 (runway <- get_nearest_runway api airport_id hdg kw ;;
                  ret (Some (identifier runway)))
                 NotFoundError
                 (logging_warning ;;; ret None) ;;
             ret (approaches ++
                  [{| airport := airport_id; runway := runway_ident;
                      type := approach_type;
                      approach_datetime := approach_datetime |}])
           end)
    | _, _ => logging_warning ;;; ret approaches
    end
  end.

(** [for approach in approach_and_landing: ...]. *)
Fixpoint derive_loop (api : api_handler)
    (datetime_of_index : datetime_of_index_t) (i : inputs)
    (approaches : V) (todo : list SectionItem) : M V V :=
  match todo with
  | [] => ret approaches
  | approach :: rest =>
      approaches' <- derive_body api datetime_of_index i approaches approach ;;
      derive_loop api datetime_of_index i approaches' rest
  end.

Definition derive (api : api_handler)
    (datetime_of_index : datetime_of_index_t) (i : inputs) : M V unit :=
  approaches <-
    derive_loop api datetime_of_index i [] (items (approach_and_landing i)) ;;
  set_flight_attr approaches.

End Approaches.

(** ** class Duration *)

Module Duration.

(** The attribute is a number of seconds or [None]. *)
Definition V : Type := option Q.

Definition derive (takeoff_dt landing_dt : Attr (option datetime))
    : M V unit :=
  match attr_value landing_dt, attr_value takeoff_dt with
  | Some landing, Some takeoff =>
      if truth landing && truth takeoff then
        let duration := datetime_sub landing takeoff in
        set_flight_attr (Some (total_seconds duration))
      else set_flight_attr None
  | _, _ => set_flight_attr None
  end.

End Duration.

(** ** class FlightType *)

Module FlightType.

Definition V : Type := string.

(** The inputs of [derive]. 'Touch And Go' is declared as a section node;
    the node of that name is the node of key time instances that
    [Approaches] declares, and the rule reads the [index] of its last
    item. *)
Record inputs : Type :=
  { afr_type : option (Attr (option string));
    fast : option (node SectionItem);
    liftoffs : option (node KeyTimeInstance);
    touchdowns : option (node KeyTimeInstance);
    touch_and_gos : option (node KeyTimeInstance);
    groundspeed : option Param }.

(** The list of record types that override 'COMPLETE', as the source
    writes it: the literals 'POSITIONING' and 'TEST' stand next to each
    other without a comma and make one string. *)
Definition afr_types : list string :=
  ["FERRY"; "LINE_TRAINING"; ("POSITIONING" ++ "TEST")%string; "TRAINING"].

(** [x in l] for a string or [None] and a list of strings. *)
Definition py_in (x : option string) (l : list string) : bool :=
  match x with
  | Some s => existsb (String.eqb s) l
  | None => false
  end.

Definition derive (i : inputs) : M V unit :=
  let afr_type :=
    match afr_type i with
    | Some a => if truth a then attr_value a else None
    | None => None
    end in
  if truth (liftoffs i) && negb (truth (touchdowns i)) then
    logging_warning ;;;
    set_flight_attr "LIFTOFF_ONLY"
  else if negb (truth (liftoffs i)) && truth (touchdowns i) then
    logging_warning ;;;
    set_flight_attr "TOUCHDOWN_ONLY"
  else if truth (liftoffs i) && truth (touchdowns i) then
    tds <- deref (touchdowns i) ;;
    let first_touchdown := get_first tds None None in
    los <- deref (liftoffs i) ;;
    let first_liftoff := get_first los None None in
    first_touchdown <- deref first_touchdown ;;
    first_liftoff <- deref first_liftoff ;;
    if index first_touchdown <? index first_liftoff then
      logging_warning ;;;
      set_flight_attr "TOUCHDOWN_BEFORE_LIFTOFF"
    else
      let complete :=
        let flight_type :=
          if py_in afr_type afr_types then
            match afr_type with Some t => t | None => "COMPLETE" end
          else "COMPLETE" in
        set_flight_attr flight_type in
      let last_touchdown := get_last tds None None in
      if_dep (touch_and_gos i)
        (fun tgs =>
           let last_touchdown := get_last tds None None in
           let last_touch_and_go := get_last tgs None None in
           last_touchdown <- deref last_touchdown ;;
           last_touch_and_go <- deref last_touch_and_go ;;
           if index last_touchdown <=? index last_touch_and_go then
             logging_warning ;;;
             set_flight_attr "LIFTOFF_ONLY"
           else complete)
        complete
  else if truth (fast i) then
    set_flight_attr "REJECTED_TAKEOFF"
  else
    if_dep (groundspeed i)
      (fun gs =>
         range <- lift (ptp (array gs)) ;;
         if range >? 10 then set_flight_attr "GROUND_RUN"
         else set_flight_attr "ENGINE_RUN_UP")
      (set_flight_attr "ENGINE_RUN_UP").

End FlightType.

(** ** class TakeoffPilot and class LandingPilot *)

Module Pilot.

(** The attribute is ['Captain'], ['First Officer'] or [None]. *)
Definition V : Type := option string.

(** The body of [_controls_in_use(takeoff_slice, pitch, roll)], the same in
    both classes: [or] evaluates the roll only when the pitch does not
    change. *)
Definition _controls_in_use (takeoff_slice : slice) (pitch roll : Param)
    : M V bool :=
  pitch_range <- lift (ptp (getslice (array pitch) takeoff_slice)) ;;
  if negb (pitch_range =? 0) then ret true
  else
    roll_range <- lift (ptp (getslice (array roll) takeoff_slice)) ;;
    ret (negb (roll_range =? 0)).

(** [self._controls_in_use(slice, pitch, roll)] as the classes have it. The
    function is defined in the class body with the three parameters
    [(takeoff_slice, pitch, roll)], without [self] and without
    [staticmethod]; looked up on [self] it is a bound method, which passes
    the instance first: four arguments for three parameters, and the call
    raises [TypeError] before the body runs. *)
Definition self_controls_in_use (takeoff_slice : slice) (pitch roll : Param)
    : M V bool :=
  raise TypeError.

Record inputs : Type :=
  { autopilot1 : option (node KeyPointValue);
    autopilot2 : option (node KeyPointValue);
    pitch_captain : option Param;
    roll_captain : option Param;
    pitch_fo : option Param;
    roll_fo : option Param;
    sections : option (node SectionItem) }.

(** The block '3) Autopilot Engaged': [pick] is [get_first] at takeoff and
    [get_last] at landing. The second flag is read from channel 1, as the
    first is: the source has [liftoff_autopilot1.get_first()] (and
    [touchdown_autopilot1.get_last()]) on both lines. *)
Definition autopilot_block
    (pick : node KeyPointValue -> option KeyPointValue) (i : inputs)
    : M V unit :=
  match autopilot1 i, autopilot2 i with
  | Some ap1, Some ap2 =>
      if truth ap1 && truth ap2 then
        let first_autopilot1 := pick ap1 in
        let first_autopilot2 := pick ap1 in
        if negb (truth first_autopilot1) || negb (truth first_autopilot2) then
          set_flight_attr None
        else
          first_autopilot1 <- deref first_autopilot1 ;;
          first_autopilot2 <- deref first_autopilot2 ;;
          if truth (kpv_value first_autopilot1)
             && negb (truth (kpv_value first_autopilot2)) then
            set_flight_attr (Some "Captain")
          else if negb (truth (kpv_value first_autopilot1))
                  && truth (kpv_value first_autopilot2) then
            set_flight_attr (Some "First Officer")
          else ret tt
      else ret tt
  | _, _ => ret tt
  end.

(** [derive], for a given meaning of the call [self._controls_in_use(..)].
    The branches for one seat return; the branches for both seats and for
    neither have no [return] and go on to the autopilot block. *)
Definition derive_with
    (controls_in_use : slice -> Param -> Param -> M V bool)
    (pick : node KeyPointValue -> option KeyPointValue) (i : inputs)
    : M V unit :=
  match pitch_captain i, roll_captain i, pitch_fo i, roll_fo i, sections i with
  | Some pitch_captain, Some roll_captain, Some pitch_fo, Some roll_fo,
    Some takeoffs =>
      if truth pitch_captain && truth roll_captain && truth pitch_fo
         && truth roll_fo && truth takeoffs then
        let takeoff := get_first takeoffs None None in
        if negb (truth takeoff) then
          logging_warning ;;;
          set_flight_attr None
        else
          takeoff <- deref takeoff ;;
          captain_flying <-
            controls_in_use (section_slice takeoff) pitch_captain roll_captain ;;
          fo_flying <-
            controls_in_use (section_slice takeoff) pitch_fo roll_fo ;;
          if captain_flying && fo_flying then
            logging_warning ;;;
            set_flight_attr None ;;;
            autopilot_block pick i
          else if captain_flying then
            set_flight_attr (Some "Captain")
          else if fo_flying then
            set_flight_attr (Some "First Officer")
          else
            set_flight_attr None ;;;
            logging_warning ;;;
            autopilot_block pick i
      else autopilot_block pick i
  | _, _, _, _, _ => autopilot_block pick i
  end.

End Pilot.

Module TakeoffPilot.

Definition V : Type := Pilot.V.

Definition _controls_in_use := Pilot._controls_in_use.

(** [derive]: the controls during the first 'Takeoff' section, then the
    first autopilot flags at liftoff. *)
Definition derive (i : Pilot.inputs) : M V unit :=
  Pilot.derive_with Pilot.self_controls_in_use
    (fun n => get_first n None None) i.

(** [derive] with the body of [_controls_in_use] run on the three arguments
    of the call, as a static method would be. *)
Definition derive_static (i : Pilot.inputs) : M V unit :=
  Pilot.derive_with _controls_in_use (fun n => get_first n None None) i.

End TakeoffPilot.

Module LandingPilot.

Definition V : Type := Pilot.V.

Definition _controls_in_use := Pilot._controls_in_use.

(** [derive]: the controls during the first 'Landing' section, then the last
    autopilot flags at touchdown. *)
Definition derive (i : Pilot.inputs) : M V unit :=
  Pilot.derive_with Pilot.self_controls_in_use
    (fun n => get_last n None None) i.

(** [derive] with the body of [_controls_in_use] run on the three arguments
    of the call, as a static method would be. *)
Definition derive_static (i : Pilot.inputs) : M V unit :=
  Pilot.derive_with _controls_in_use (fun n => get_last n None None) i.

End LandingPilot.

(** [airport.value['id']]: the value of the airport attribute is a record
    or [None], and [None] cannot be subscripted. *)
Definition airport_value_id {V} (airport : Attr (option airport_info))
    : M V Z :=
  match attr_value airport with
  | Some a => ret (airport_id a)
  | None => raise TypeError
  end.

(** ** class LandingAirport *)

Module LandingAirport.

Definition V : Type := option airport_info.

Definition derive (api : api_handler)
    (landing_latitude landing_longitude : node KeyPointValue) : M V unit :=
  let last_latitude := get_last landing_latitude None None in
  let last_longitude := get_last landing_longitude None None in
  match last_latitude, last_longitude with
  | Some last_latitude, Some last_longitude =>
      if negb (truth last_latitude) || negb (truth last_longitude) then
        logging_warning ;;;
        set_flight_attr None
      else
        try_except_else
          (get_nearest_airport api (kpv_value last_latitude)
             (kpv_value last_longitude))
          NotFoundError
          (logging_warning ;;;
           set_flight_attr None)
          (fun airport => set_flight_attr (Some airport))
  | _, _ =>
      logging_warning ;;;
      set_flight_attr None
  end.

End LandingAirport.

(** ** class LandingRunway *)

Module LandingRunway.

Definition V : Type := runway_info.

(** The heading, latitude and longitude at landing are declared as
    parameters and queried as nodes of key point values. *)
Record inputs : Type :=
  { approach_and_landing : node SectionItem;
    landing_hdg : node KeyPointValue;
    airport : Attr (option airport_info);
    landing_latitude : option (node KeyPointValue);
    landing_longitude : option (node KeyPointValue);
    approach_ilsfreq : option (node KeyPointValue);
    precision : option (Attr bool) }.

Definition runway_kwargs (i : inputs) (landing : SectionItem) : kwargs :=
  let kw := [] in
  let kw :=
    if_dep (approach_ilsfreq i)
      (fun n =>
         let ilsfreq_kpv := get_last n (Some (section_slice landing)) None in
         setitem kw "ilsfreq"
           (match ilsfreq_kpv with
            | Some k => if truth k then Some (kpv_value k) else None
            | None => None
            end))
      kw in
  match precision i, landing_latitude i, landing_longitude i with
  | Some p, Some lat_n, Some lon_n =>
      if truth p && truth (attr_value p) && truth lat_n && truth lon_n then
        let last_latitude :=
          get_last lat_n (Some (section_slice landing)) None in
        let last_longitude :=
          get_last lon_n (Some (section_slice landing)) None in
        match last_latitude, last_longitude with
        | Some la, Some lo =>
            if truth la && truth lo then
              setitem (setitem kw "latitude" (Some (kpv_value la)))
                "longitude" (Some (kpv_value lo))
            else kw
        | _, _ => kw
        end
      else kw
  | _, _, _ => kw
  end.

Definition derive (api : api_handler) (i : inputs) : M V unit :=
  airport_id <- airport_value_id (airport i) ;;
  let landing := get_last (approach_and_landing i) None None in
  match landing with
  | None => ret tt
  | Some landing =>
    if negb (truth landing) then ret tt
    else
    let heading_kpv :=
      get_last (landing_hdg i) (Some (section_slice landing)) None in
    match heading_kpv with
    | None => logging_warning
    | Some heading_kpv =>
      if negb (truth heading_kpv) then logging_warning
      else
      let heading := kpv_value heading_kpv in
      let kw := runway_kwargs i landing in
      try_except_else (get_nearest_runway api airport_id heading kw)
        NotFoundError
        logging_warning
        (fun runway => set_flight_attr runway)
    end
  end.

End LandingRunway.

(** ** class TakeoffAirport *)

Module TakeoffAirport.

Definition V : Type := option airport_info.

Definition derive (api : api_handler) (liftoff : node KeyTimeInstance)
    (latitude longitude : Param) : M V unit :=
  if negb (truth liftoff) then
    logging_warning ;;;
    set_flight_attr None
  else
    liftoff0 <- lift (getitem (items liftoff) 0) ;;
    let liftoff_index := index liftoff0 in
    latitude_at_liftoff <- lift (getitem (array latitude) liftoff_index) ;;
    longitude_at_liftoff <- lift (getitem (array longitude) liftoff_index) ;;
    try_except_else
      (get_nearest_airport api latitude_at_liftoff longitude_at_liftoff)
      NotFoundError
      logging_warning
      (fun airport => set_flight_attr (Some airport)).

End TakeoffAirport.

(** ** class TakeoffRunway *)

Module TakeoffRunway.

Definition V : Type := runway_info.

Record inputs : Type :=
  { airport : Attr (option airport_info);
    hdg : node KeyPointValue;
    liftoff : option (node KeyTimeInstance);
    latitude : option Param;
    longitude : option Param;
    precision : option (Attr bool) }.

Definition runway_kwargs (i : inputs) : M V kwargs :=
  let kw := [] in
  match precision i, liftoff i, latitude i, longitude i with
  | Some p, Some liftoff, Some latitude, Some longitude =>
      if truth p && truth (attr_value p) && truth liftoff && truth latitude
         && truth longitude then
        liftoff0 <- lift (getitem (items liftoff) 0) ;;
        let liftoff_index := index liftoff0 in
        latitude_at_liftoff <- lift (getitem (array latitude) liftoff_index) ;;
        longitude_at_liftoff <-
          lift (getitem (array longitude) liftoff_index) ;;
        ret (setitem (setitem kw "latitude" (Some latitude_at_liftoff))
               "longitude" (Some longitude_at_liftoff))
      else ret kw
  | _, _, _, _ => ret kw
  end.

Definition derive (api : api_handler) (i : inputs) : M V unit :=
  kw <- runway_kwargs i ;;
  airport_id <- airport_value_id (airport i) ;;
  hdg0 <- lift (getitem (items (hdg i)) 0) ;;
  let hdg_value := kpv_value hdg0 in
  try_except_else (get_nearest_runway api airport_id hdg_value kw)
    NotFoundError
    logging_warning
    (fun runway => set_flight_attr runway).

End TakeoffRunway.

(** ** The value-selection rules *)

Module AnalysisDatetime.
Definition V : Type := datetime.
(** [now] is the value of [datetime.now()]. *)
Definition derive (now : datetime) (start_datetime : Attr datetime)
    : M V unit :=
  set_flight_attr now.
End AnalysisDatetime.

Module FlightID.
Definition V : Type := option string.
Definition derive (flight_id : Attr (option string)) : M V unit :=
  set_flight_attr (attr_value flight_id).
End FlightID.

Module FlightNumber.
Definition V : Type := Z.
(** [num.array[len(num.array) / 2]], with the integer division of
    Python 2. *)
Definition derive (num : Param) : M V unit :=
  v <- lift (getitem (array num) (len (array num) / 2)) ;;
  set_flight_attr v.
End FlightNumber.

Module OffBlocksDatetime.
Definition V : Type := option datetime.
Definition derive (datetime_of_index : datetime_of_index_t)
    (turning : node SectionItem) (start_datetime : Attr datetime)
    : M V unit :=
  let first_turning := get_first turning None (Some "Turning On Ground") in
  match first_turning with
  | Some first_turning =>
      if truth first_turning then
        let off_blocks_datetime :=
          datetime_of_index (attr_value start_datetime)
            (start (section_slice first_turning)) (frequency turning) in
        set_flight_attr (Some off_blocks_datetime)
      else set_flight_attr None
  | None => set_flight_attr None
  end.
End OffBlocksDatetime.

Module OnBlocksDatetime.
Definition V : Type := option datetime.
Definition derive (datetime_of_index : datetime_of_index_t)
    (turning : node SectionItem) (start_datetime : Attr datetime)
    : M V unit :=
  let last_turning := get_last turning None (Some "Turning On Ground") in
  match last_turning with
  | Some last_turning =>
      if truth last_turning then
        let on_blocks_datetime :=
          datetime_of_index (attr_value start_datetime)
            (start (section_slice last_turning)) (frequency turning) in
        set_flight_attr (Some on_blocks_datetime)
      else set_flight_attr None
  | None => set_flight_attr None
  end.
End OnBlocksDatetime.

Module TakeoffDatetime.
Definition V : Type := option datetime.
Definition derive (datetime_of_index : datetime_of_index_t)
    (liftoff : node KeyTimeInstance) (start_dt : Attr datetime) : M V unit :=
  let first_liftoff := get_first liftoff None None in
  match first_liftoff with
  | None => set_flight_attr None
  | Some first_liftoff =>
      if negb (truth first_liftoff) then set_flight_attr None
      else
        let liftoff_index := index first_liftoff in
        let takeoff_dt :=
          datetime_of_index (attr_value start_dt) liftoff_index
            (frequency liftoff) in
        set_flight_attr (Some takeoff_dt)
  end.
End TakeoffDatetime.

Module LandingDatetime.
Definition V : Type := option datetime.
Definition derive (datetime_of_index : datetime_of_index_t)
    (start_datetime : Attr datetime) (touchdown : node KeyTimeInstance)
    : M V unit :=
  let last_touchdown := get_last touchdown None None in
  match last_touchdown with
  | None => set_flight_attr None
  | Some last_touchdown =>
      if negb (truth last_touchdown) then set_flight_attr None
      else
        let landing_datetime :=
          datetime_of_index (attr_value start_datetime)
            (index last_touchdown) (frequency touchdown) in
        set_flight_attr (Some landing_datetime)
  end.
End LandingDatetime.

(** The fuel rules: the AFR attribute when there is one, the KPV
    otherwise. [pick] is [get_first] at takeoff and [get_last] at landing. *)
Module Fuel.
Definition V : Type := Z.
Definition derive (pick : node KeyPointValue -> option KeyPointValue)
    (afr_fuel : option (Attr Z)) (fuel_qty : option (node KeyPointValue))
    : M V unit :=
  if_dep afr_fuel
    (fun afr => set_flight_attr (attr_value afr))
    (n <- deref fuel_qty ;;
     let fuel_qty_kpv := pick n in
     match fuel_qty_kpv with
     | Some k => if truth k then set_flight_attr (kpv_value k) else ret tt
     | None => ret tt
     end).
End Fuel.

Module TakeoffFuel.
Definition V : Type := Fuel.V.
Definition derive := Fuel.derive (fun n => get_first n None None).
End TakeoffFuel.

Module LandingFuel.
Definition V : Type := Fuel.V.
Definition derive := Fuel.derive (fun n => get_last n None None).
End LandingFuel.

(** The gross weight rules: the first KPV at liftoff, the last at
    touchdown. *)
Module GrossWeight.
Definition V : Type := Z.
Definition derive (pick : node KeyPointValue -> option KeyPointValue)
    (gross_weight : node KeyPointValue) : M V unit :=
  match pick gross_weight with
  | Some k => if truth k then set_flight_attr (kpv_value k) else ret tt
  | None => ret tt
  end.
End GrossWeight.

Module TakeoffGrossWeight.
Definition V : Type := GrossWeight.V.
Definition derive := GrossWeight.derive (fun n => get_first n None None).
End TakeoffGrossWeight.

Module LandingGrossWeight.
Definition V : Type := GrossWeight.V.
Definition derive := GrossWeight.derive (fun n => get_last n None None).
End LandingGrossWeight.

Module Version.
Definition V : Type := string.
(** [version] is the value of [___version___]. *)
Definition derive (version : string) (start_datetime : Attr datetime)
    : M V unit :=
  set_flight_attr version.
End Version.

(** The speed rules set nothing: they return [None] or [NotImplemented]. *)
Module Speed.
Definition V : Type := Z.
Inductive returned : Type := ReturnedNone | NotImplemented.
(** [V2.derive] and [Vapp.derive]. *)
Definition derive (weight_touchdown flap_touchdown : node KeyPointValue)
    : M V returned :=
  let weight := get_last weight_touchdown None None in
  let flap := get_last flap_touchdown None None in
  if negb (truth weight) || negb (truth flap) then ret ReturnedNone
  else ret NotImplemented.
(** [Vref.derive]. *)
Definition derive_vref (aircraft_model : Attr string)
    (weight_touchdown flap_touchdown : node KeyPointValue) : M V returned :=
  ret NotImplemented.
End Speed.

(** ** The vocabulary of the properties *)

(** The items of a node within an interval; a node that is not available
    has none. *)
Definition matches {A} `{Item A} (n : option (node A)) (s : slice) : list A :=
  match n with
  | Some n => get n (Some s) None
  | None => []
  end.

(** The pair of values of a latitude node and a longitude node within an
    interval, when each has exactly one item there. *)
Definition unique_pair (lat_n lon_n : option (node KeyPointValue))
    (s : slice) : option (Z * Z) :=
  match matches lat_n s, matches lon_n s with
  | [la], [lo] => Some (kpv_value la, kpv_value lo)
  | _, _ => None
  end.

(** The priority order of the approach types, in the words of the
    specification: the first discriminator with exactly one match wins. *)
Definition approach_type_by_priority (s : slice)
    (landing_hdg : option (node KeyPointValue))
    (touch_and_gos go_arounds : option (node KeyTimeInstance))
    : option string :=
  if len (matches landing_hdg s) =? 1 then Some "LANDING"
  else if len (matches touch_and_gos s) =? 1 then Some "TOUCH_AND_GO"
  else if len (matches go_arounds s) =? 1 then Some "GO_AROUND"
  else None.

(** The position of an approach, in the words of the specification: the
    landing pair when it is unique, else the approach pair when it is
    unique, else no position. *)
Definition lat_lon_by_priority (s : slice)
    (landing_lat landing_lon approach_lat approach_lon
       : option (node KeyPointValue)) : option Z * option Z :=
  match unique_pair landing_lat landing_lon s with
  | Some (la, lo) => (Some la, Some lo)
  | None =>
      match unique_pair approach_lat approach_lon s with
      | Some (la, lo) => (Some la, Some lo)
      | None => (None, None)
      end
  end.

(** A rule commits at most once. *)
Definition at_most_one_commit {V A} (m : M V A) : Prop :=
  (List.length (commits (trace m)) <= 1)%nat.


(** The local [afr_type] of [FlightType.derive]: the value of the attribute,
    or [None] without the attribute. *)
Definition afr_type_value (i : FlightType.inputs) : option string :=
  match FlightType.afr_type i with
  | Some a => if truth a then attr_value a else None
  | None => None
  end.

(** The flight type that [FlightType.derive] gives a flight with liftoff
    and touchdown in order and without a touch and go after the last
    touchdown. *)
Definition complete_or_override (i : FlightType.inputs) : string :=
  if FlightType.py_in (afr_type_value i) FlightType.afr_types then
    match afr_type_value i with Some t => t | None => "COMPLETE" end
  else "COMPLETE".

(** ** Concrete inputs *)

Module Example.

Definition kpv (i v : Z) : KeyPointValue :=
  {| kpv_index := i; kpv_value := v; kpv_name := "" |}.

Definition kti (i : Z) : KeyTimeInstance :=
  {| kti_index := i; kti_name := "" |}.

Definition section (nm : string) (a b : Z) : SectionItem :=
  {| section_name := nm; section_slice := {| start := a; stop := b |} |}.

Definition node_of {A} (nm : string) (l : list A) : node A :=
  {| name := nm; frequency := 1; items := l |}.

Definition param (nm : string) (a : list Z) : Param :=
  {| param_name := nm; hz := 1; array := a |}.

Definition attr {T} (nm : string) (v : T) : Attr T :=
  {| attr_name := nm; attr_value := v |}.

(** One second per sample, from the start of the recording. *)
Definition doi : datetime_of_index_t :=
  fun start_datetime i _ =>
    {| timestamp := timestamp start_datetime + i * 1000000 |}.

(** A handler that finds nothing, and one that finds an airport and a
    runway for every query. *)
Definition api_nothing : api_handler :=
  {| nearest_airport := fun _ _ => inl NotFoundError;
     nearest_runway := fun _ _ _ => inl NotFoundError |}.

Definition heathrow : airport_info :=
  {| airport_id := 2383; airport_name := "London Heathrow" |}.

Definition runway_27L : runway_info :=
  {| runway_id := 1234; identifier := "27L"; magnetic_heading := 270 |}.

Definition api_heathrow : api_handler :=
  {| nearest_airport := fun _ _ => inr heathrow;
     nearest_runway := fun _ _ _ => inr runway_27L |}.

(** An airport is found, but no runway. *)
Definition api_no_runway : api_handler :=
  {| nearest_airport := fun _ _ => inr heathrow;
     nearest_runway := fun _ _ _ => inl NotFoundError |}.

(** One approach, between the samples 0 and 100. *)
Definition approach0 : SectionItem := section "Approach And Landing" 0 100.

(** The inputs of [Approaches.derive] for one approach with a landing
    heading [hdg] at sample 50 and the position [(lat, lon)] at landing. *)
Definition landing_at (lat lon hdg : Z) : Approaches.inputs :=
  {| Approaches.start_datetime := attr "Start Datetime" {| timestamp := 0 |};
     Approaches.approach_and_landing :=
       node_of "Approach And Landing" [approach0];
     Approaches.landing_hdg_kpvs :=
       Some (node_of "Heading At Landing" [kpv 50 hdg]);
     Approaches.touch_and_gos := Some (node_of "Touch And Go" []);
     Approaches.go_arounds := Some (node_of "Go Around" []);
     Approaches.landing_lat_kpvs :=
       Some (node_of "Latitude At Landing" [kpv 50 lat]);
     Approaches.landing_lon_kpvs :=
       Some (node_of "Longitude At Landing" [kpv 50 lon]);
     Approaches.approach_lat_kpvs := None;
     Approaches.approach_lon_kpvs := None;
     Approaches.approach_hdg_kpvs := None;
     Approaches.approach_ilsfreq_kpvs := None;
     Approaches.precision := None |}.

(** The same approach without any landing heading, touch and go or go
    around within it. *)
Definition no_discriminator : Approaches.inputs :=
  {| Approaches.start_datetime := attr "Start Datetime" {| timestamp := 0 |};
     Approaches.approach_and_landing :=
       node_of "Approach And Landing" [approach0];
     Approaches.landing_hdg_kpvs :=
       Some (node_of "Heading At Landing" [kpv 150 270]);
     Approaches.touch_and_gos := Some (node_of "Touch And Go" []);
     Approaches.go_arounds := Some (node_of "Go Around" [kti 120]);
     Approaches.landing_lat_kpvs :=
       Some (node_of "Latitude At Landing" [kpv 50 51]);
     Approaches.landing_lon_kpvs :=
       Some (node_of "Longitude At Landing" [kpv 50 7]);
     Approaches.approach_lat_kpvs := None;
     Approaches.approach_lon_kpvs := None;
     Approaches.approach_hdg_kpvs := None;
     Approaches.approach_ilsfreq_kpvs := None;
     Approaches.precision := None |}.

End Example.

Module ExampleFlight.
Import Example.

(** A flight with a liftoff at sample 100 and a touchdown at sample 500,
    without touch and go, and with the record type [afr]. *)
Definition complete_flight (afr : option string) : FlightType.inputs :=
  {| FlightType.afr_type := Some (attr "AFR Type" afr);
     FlightType.fast := Some (node_of "Fast" [section "Fast" 90 510]);
     FlightType.liftoffs := Some (node_of "Liftoff" [kti 100]);
     FlightType.touchdowns := Some (node_of "Touchdown" [kti 500]);
     FlightType.touch_and_gos := None;
     FlightType.groundspeed := None |}.

(** A flight with the liftoffs [los], one touchdown at sample 500 and a
    touch and go at sample 600. *)
Definition trailing_touch_and_go (afr : option (Attr (option string)))
    (fast : option (node SectionItem)) (gs : option Param)
    (los : node KeyTimeInstance) : FlightType.inputs :=
  {| FlightType.afr_type := afr;
     FlightType.fast := fast;
     FlightType.liftoffs := Some los;
     FlightType.touchdowns := Some (node_of "Touchdown" [kti 500]);
     FlightType.touch_and_gos := Some (node_of "Touch And Go" [kti 600]);
     FlightType.groundspeed := gs |}.

(** Takeoff and landing datetimes one hour and a half apart. *)
Definition takeoff_dt : Attr (option datetime) :=
  attr "FDR Takeoff Datetime" (Some {| timestamp := 1000000000 |}).
Definition landing_dt : Attr (option datetime) :=
  attr "FDR Landing Datetime" (Some {| timestamp := 6400500000 |}).
Definition no_dt (nm : string) : Attr (option datetime) := attr nm None.

End ExampleFlight.

Module ExamplePilot.
Import Example.

(** Both seats move their controls during the section between the samples
    0 and 3, and both autopilot flags are recorded. *)
Definition both_active : Pilot.inputs :=
  {| Pilot.autopilot1 := Some (node_of "Autopilot Engaged 1" [kpv 10 0]);
     Pilot.autopilot2 := Some (node_of "Autopilot Engaged 2" [kpv 10 1]);
     Pilot.pitch_captain := Some (param "Pitch (Capt)" [0; 1; 2]);
     Pilot.roll_captain := Some (param "Roll (Capt)" [0; 0; 0]);
     Pilot.pitch_fo := Some (param "Pitch (FO)" [0; 3; 1]);
     Pilot.roll_fo := Some (param "Roll (FO)" [0; 0; 0]);
     Pilot.sections := Some (node_of "Takeoff" [section "Takeoff" 0 3]) |}.

(** Only the captain moves the controls. *)
Definition captain_active : Pilot.inputs :=
  {| Pilot.autopilot1 := Some (node_of "Autopilot Engaged 1" [kpv 10 0]);
     Pilot.autopilot2 := Some (node_of "Autopilot Engaged 2" [kpv 10 1]);
     Pilot.pitch_captain := Some (param "Pitch (Capt)" [0; 1; 2]);
     Pilot.roll_captain := Some (param "Roll (Capt)" [0; 0; 0]);
     Pilot.pitch_fo := Some (param "Pitch (FO)" [5; 5; 5]);
     Pilot.roll_fo := Some (param "Roll (FO)" [0; 0; 0]);
     Pilot.sections := Some (node_of "Takeoff" [section "Takeoff" 0 3]) |}.

(** No control parameter is available; the flags of the autopilot channels
    1 and 2 are [ap1] and [ap2]. *)
Definition autopilot_only (ap1 ap2 : Z) : Pilot.inputs :=
  {| Pilot.autopilot1 := Some (node_of "Autopilot Engaged 1" [kpv 10 ap1]);
     Pilot.autopilot2 := Some (node_of "Autopilot Engaged 2" [kpv 10 ap2]);
     Pilot.pitch_captain := None;
     Pilot.roll_captain := None;
     Pilot.pitch_fo := None;
     Pilot.roll_fo := None;
     Pilot.sections := None |}.

(** Neither seat moves the controls; the flags of the autopilot channels 1
    and 2 are [ap1] and [ap2]. *)
Definition controls_at_rest (ap1 ap2 : Z) : Pilot.inputs :=
  {| Pilot.autopilot1 := Some (node_of "Autopilot Engaged 1" [kpv 10 ap1]);
     Pilot.autopilot2 := Some (node_of "Autopilot Engaged 2" [kpv 10 ap2]);
     Pilot.pitch_captain := Some (param "Pitch (Capt)" [4; 4; 4]);
     Pilot.roll_captain := Some (param "Roll (Capt)" [0; 0; 0]);
     Pilot.pitch_fo := Some (param "Pitch (FO)" [5; 5; 5]);
     Pilot.roll_fo := Some (param "Roll (FO)" [0; 0; 0]);
     Pilot.sections := Some (node_of "Takeoff" [section "Takeoff" 0 3]) |}.

End ExamplePilot.

Module ExampleLookup.
Import Example.

(** The position and the heading at landing and at liftoff. *)
Definition latitude_at_landing : node KeyPointValue :=
  node_of "Latitude At Landing" [kpv 50 51].
Definition longitude_at_landing : node KeyPointValue :=
  node_of "Longitude At Landing" [kpv 50 7].

Definition liftoff : node KeyTimeInstance := node_of "Liftoff" [kti 2].
Definition latitude : Param := param "Latitude" [50; 50; 51; 52].
Definition longitude : Param := param "Longitude" [6; 6; 7; 8].

Definition landing_runway : LandingRunway.inputs :=
  {| LandingRunway.approach_and_landing :=
       node_of "Approach And Landing" [approach0];
     LandingRunway.landing_hdg := node_of "Heading At Landing" [kpv 50 270];
     LandingRunway.airport := attr "FDR Landing Airport" (Some heathrow);
     LandingRunway.landing_latitude := None;
     LandingRunway.landing_longitude := None;
     LandingRunway.approach_ilsfreq := None;
     LandingRunway.precision := None |}.

Definition takeoff_runway : TakeoffRunway.inputs :=
  {| TakeoffRunway.airport := attr "FDR Takeoff Airport" (Some heathrow);
     TakeoffRunway.hdg := node_of "Heading At Takeoff" [kpv 2 90];
     TakeoffRunway.liftoff := Some liftoff;
     TakeoffRunway.latitude := Some latitude;
     TakeoffRunway.longitude := Some longitude;
     TakeoffRunway.precision := None |}.

End ExampleLookup.

(** ** The availability tests of the rules *)

Module CanOperate.

(** [n in available], for the names of the inputs that are available. *)
Definition has (available : list string) (n : string) : bool :=
  existsb (String.eqb n) available.

(** [all([n in available for n in names])]. *)
Definition all_in (available : list string) (names : list string) : bool :=
  forallb (has available) names.

(** [Approaches.can_operate]. *)
Definition Approaches (available : list string) : bool :=
  let required :=
    all_in available
      ["Start Datetime"; "Approach And Landing"; "Heading At Landing";
       "Touch And Go"; "Go Around"] in
  let approach_lat_lon :=
    has available "Latitude At Low Point On Approach"
    && has available "Longitude At Low Point On Approach" in
  let landing_lat_lon :=
    has available "Latitude At Landing"
    && has available "Longitude At Landing" in
  required && (approach_lat_lon || landing_lat_lon).

(** [LandingRunway.can_operate]. *)
Definition LandingRunway (available : list string) : bool :=
  all_in available
    ["Approach And Landing"; "FDR Landing Airport"; "Heading At Landing"].

(** [TakeoffFuel.can_operate]. *)
Definition TakeoffFuel (available : list string) : bool :=
  has available "AFR Takeoff Fuel" || has available "Fuel Qty At Liftoff".

(** [TakeoffPilot.can_operate]. *)
Definition TakeoffPilot (available : list string) : bool :=
  let autopilot_available :=
    has available "Autopilot Engaged 1 At Liftoff"
    && has available "Autopilot Engaged 2 At Liftoff" in
  let controls_available :=
    all_in available
      ["Pitch (Capt)"; "Pitch (FO)"; "Roll (Capt)"; "Roll (FO)"; "Takeoff"] in
  autopilot_available || controls_available.

(** [TakeoffRunway.can_operate]. *)
Definition TakeoffRunway (available : list string) : bool :=
  has available "FDR Takeoff Airport" && has available "Heading At Takeoff".

(** [FlightType.can_operate]. *)
Definition FlightType (available : list string) : bool :=
  all_in available ["Fast"; "Liftoff"; "Touchdown"].

(** [LandingFuel.can_operate]. *)
Definition LandingFuel (available : list string) : bool :=
  has available "AFR Landing Fuel" || has available "Fuel Qty At Touchdown".

(** [LandingPilot.can_operate]. *)
Definition LandingPilot (available : list string) : bool :=
  let controls_available :=
    all_in available
      ["Pitch (Capt)"; "Pitch (FO)"; "Roll (Capt)"; "Roll (FO)"; "Landing"] in
  let autopilot_available :=
    has available "Autopilot Engaged 1 At Touchdown"
    && has available "Autopilot Engaged 2 At Touchdown" in
  controls_available || autopilot_available.

(** The availability tests that the classes define, by the name of the
    attribute of the class. *)
Definition gates : list (string * (list string -> bool)) :=
  [("FDR Approaches", Approaches); ("FDR Landing Runway", LandingRunway);
   ("FDR Takeoff Fuel", TakeoffFuel); ("FDR Takeoff Pilot", TakeoffPilot);
   ("FDR Takeoff Runway", TakeoffRunway); ("FDR Flight Type", FlightType);
   ("FDR Landing Fuel", LandingFuel); ("FDR Landing Pilot", LandingPilot)].

End CanOperate.

(** ** More vocabulary *)

(** The heading of an approach, by priority: the landing heading when it
    has exactly one item within the interval, else the approach heading
    when it has exactly one item there, else none. *)
Definition hdg_by_priority (s : slice)
    (landing_hdg approach_hdg : option (node KeyPointValue)) : option Z :=
  match matches landing_hdg s with
  | [k] => Some (kpv_value k)
  | _ =>
      match matches approach_hdg s with
      | [k] => Some (kpv_value k)
      | _ => None
      end
  end.

(** The records that the loop of [Approaches.derive] appends for one
    approach: what an iteration that starts from the empty list returns. *)
Definition records_of (api : api_handler) (doi : datetime_of_index_t)
    (i : Approaches.inputs) (a : SectionItem)
    : list Approaches.approach_record :=
  match outcome (Approaches.derive_body api doi i [] a) with
  | inr records => records
  | inl _ => []
  end.

(** All the samples of an array are the same. *)
Definition constant (a : list Z) : bool :=
  match a with
  | [] => true
  | x :: r => forallb (Z.eqb x) r
  end.

(** The control parameters and a section are there for a pilot rule. *)
Definition controls_available (i : Pilot.inputs) : bool :=
  match Pilot.pitch_captain i, Pilot.roll_captain i, Pilot.pitch_fo i,
        Pilot.roll_fo i, Pilot.sections i with
  | Some _, Some _, Some _, Some _, Some sections => truth sections
  | _, _, _, _, _ => false
  end.

(** The flight types that [FlightType.derive] can commit. *)
Definition flight_types : list string :=
  ["LIFTOFF_ONLY"; "TOUCHDOWN_ONLY"; "TOUCHDOWN_BEFORE_LIFTOFF"; "COMPLETE";
   "REJECTED_TAKEOFF"; "GROUND_RUN"; "ENGINE_RUN_UP"; "FERRY";
   "LINE_TRAINING"; "POSITIONINGTEST"; "TRAINING"].

Module ExampleGround.
Import Example.

(** A recording with the liftoffs [los] and the touchdowns [tds], given by
    their indices, and nothing else. *)
Definition recorded (los tds : list Z) : FlightType.inputs :=
  {| FlightType.afr_type := None;
     FlightType.fast := Some (node_of "Fast" []);
     FlightType.liftoffs := Some (node_of "Liftoff" (map kti los));
     FlightType.touchdowns := Some (node_of "Touchdown" (map kti tds));
     FlightType.touch_and_gos := None;
     FlightType.groundspeed := None |}.


(** A ferry flight with a liftoff at 100, a touch and go at 300 recorded as
    a touchdown too, and the landing at 500. *)
Definition touch_and_go_then_landing : FlightType.inputs :=
  {| FlightType.afr_type := Some (attr "AFR Type" (Some "FERRY"));
     FlightType.fast := Some (node_of "Fast" [section "Fast" 90 510]);
     FlightType.liftoffs := Some (node_of "Liftoff" [kti 100]);
     FlightType.touchdowns := Some (node_of "Touchdown" [kti 300; kti 500]);
     FlightType.touch_and_gos := Some (node_of "Touch And Go" [kti 300]);
     FlightType.groundspeed := None |}.

End ExampleGround.

Module ExampleRunway.
Import Example.

(** The landing airport was not found: the attribute has the value
    [None]. *)
Definition landing_without_airport : LandingRunway.inputs :=
  {| LandingRunway.approach_and_landing :=
       node_of "Approach And Landing" [approach0];
     LandingRunway.landing_hdg := node_of "Heading At Landing" [kpv 50 270];
     LandingRunway.airport := attr "FDR Landing Airport" None;
     LandingRunway.landing_latitude := None;
     LandingRunway.landing_longitude := None;
     LandingRunway.approach_ilsfreq := None;
     LandingRunway.precision := None |}.

(** The only landing heading lies after the approach section. *)
Definition landing_without_heading : LandingRunway.inputs :=
  {| LandingRunway.approach_and_landing :=
       node_of "Approach And Landing" [approach0];
     LandingRunway.landing_hdg := node_of "Heading At Landing" [kpv 150 270];
     LandingRunway.airport := attr "FDR Landing Airport" (Some heathrow);
     LandingRunway.landing_latitude := None;
     LandingRunway.landing_longitude := None;
     LandingRunway.approach_ilsfreq := None;
     LandingRunway.precision := None |}.

(** The node of headings at takeoff is empty. *)
Definition takeoff_without_heading : TakeoffRunway.inputs :=
  {| TakeoffRunway.airport := attr "FDR Takeoff Airport" (Some heathrow);
     TakeoffRunway.hdg := node_of "Heading At Takeoff" [];
     TakeoffRunway.liftoff := None;
     TakeoffRunway.latitude := None;
     TakeoffRunway.longitude := None;
     TakeoffRunway.precision := None |}.

End ExampleRunway.
(** ** Traces *)

Section Traces.
Context {V : Type}.

Lemma commits_app (t1 t2 : list (event V)) :
  commits (t1 ++ t2) = commits t1 ++ commits t2.
Proof.
  induction t1 as [| [v | l | c] t1 IH]; simpl; rewrite ?IH; reflexivity.
Qed.

Lemma calls_app (t1 t2 : list (event V)) :
  calls (t1 ++ t2) = calls t1 ++ calls t2.
Proof.
  induction t1 as [| [v | l | c] t1 IH]; simpl; rewrite ?IH; reflexivity.
Qed.

Lemma logged_app (t1 t2 : list (event V)) :
  logged (t1 ++ t2) = logged t1 ++ logged t2.
Proof.
  induction t1 as [| [v | l | c] t1 IH]; simpl; rewrite ?IH; reflexivity.
Qed.

Lemma trace_bind {A B} (m : M V A) (k : A -> M V B) :
  trace (bind m k) =
  trace m ++ match outcome m with
             | inr a => trace (k a)
             | inl _ => []
             end.
Proof.
  destruct m as [t [e | a]]; simpl.
  - now rewrite app_nil_r.
  - now destruct (k a).
Qed.

Lemma outcome_bind {A B} (m : M V A) (k : A -> M V B) :
  outcome (bind m k) =
  match outcome m with
  | inr a => outcome (k a)
  | inl e => inl e
  end.
Proof.
  destruct m as [t [e | a]]; simpl; [reflexivity | now destruct (k a)].
Qed.

Lemma bind_assoc {A B C} (m : M V A) (k : A -> M V B) (h : B -> M V C) :
  bind (bind m k) h = bind m (fun a => bind (k a) h).
Proof.
  destruct m as [t [e | a]]; simpl; [reflexivity |].
  destruct (k a) as [t' [e' | b]]; simpl; [reflexivity |].
  destruct (h b) as [t'' r]. now rewrite app_assoc.
Qed.

Lemma bind_ret_l {A B} (a : A) (k : A -> M V B) : bind (ret a) k = k a.
Proof. unfold bind, ret. now destruct (k a). Qed.

End Traces.

(** ** Queries on nodes *)

Section Queries.
Context {A : Type} `{Item A}.

Lemma get_of_false (n : node A) w nm : truth n = false -> get n w nm = [].
Proof.
  unfold truth, truth_node, truth, truth_list, get.
  destruct (items n); [reflexivity | discriminate].
Qed.

Lemma get_all (n : node A) : get n None None = items n.
Proof.
  unfold get, matching. simpl.
  induction (items n) as [| a l IH]; simpl; [reflexivity | now rewrite IH].
Qed.

Lemma matches_of_false (n : node A) s :
  truth n = false -> matches (Some n) s = [].
Proof. intros Hn. simpl. now apply get_of_false. Qed.

Lemma earliest_some (l : list A) : l <> [] -> exists a, earliest l = Some a.
Proof.
  destruct l as [| a l]; [congruence | intros _; simpl].
  destruct (earliest l) as [b |]; [destruct (index a <=? index b) |]; eauto.
Qed.

Lemma latest_some (l : list A) : l <> [] -> exists a, latest l = Some a.
Proof.
  destruct l as [| a l]; [congruence | intros _; simpl].
  destruct (latest l) as [b |]; [destruct (index b <=? index a) |]; eauto.
Qed.

Lemma earliest_spec (l : list A) (m : A) :
  earliest l = Some m -> In m l /\ forall a, In a l -> index m <= index a.
Proof.
  revert m. induction l as [| a l IH]; simpl; [discriminate |].
  intros m. destruct (earliest l) as [b |] eqn:E.
  - destruct (IH b eq_refl) as [Hin Hle].
    destruct (Z.leb_spec (index a) (index b)); intros [= <-]; split; auto.
    + intros x [<- | Hx]; [lia | specialize (Hle x Hx); lia].
    + intros x [<- | Hx]; [lia | auto].
  - intros [= <-]. destruct l as [| a0 l].
    + split; [auto |]. intros x [<- | []]; lia.
    + destruct (earliest_some (a0 :: l)) as [b Hb]; congruence.
Qed.

Lemma latest_spec (l : list A) (m : A) :
  latest l = Some m -> In m l /\ forall a, In a l -> index a <= index m.
Proof.
  revert m. induction l as [| a l IH]; simpl; [discriminate |].
  intros m. destruct (latest l) as [b |] eqn:E.
  - destruct (IH b eq_refl) as [Hin Hle].
    destruct (Z.leb_spec (index b) (index a)); intros [= <-]; split; auto.
    + intros x [<- | Hx]; [lia | specialize (Hle x Hx); lia].
    + intros x [<- | Hx]; [lia | auto].
  - intros [= <-]. destruct l as [| a0 l].
    + split; [auto |]. intros x [<- | []]; lia.
    + destruct (latest_some (a0 :: l)) as [b Hb]; congruence.
Qed.

Lemma truth_node_items (n : node A) : truth n = true -> items n <> [].
Proof.
  unfold truth, truth_node, truth, truth_list.
  destruct (items n); [discriminate | congruence].
Qed.

End Queries.

(** ** Approaches: type, position and heading of an approach *)

Section ApproachSources.
Import Approaches.

Lemma if_dep_matches {A R} `{Item A} (n : option (node A)) (s : slice)
    (f : list A -> R) (orelse : R) :
  f [] = orelse ->
  if_dep n (fun n' => f (get n' (Some s) None)) orelse = f (matches n s).
Proof.
  intros Hf. unfold if_dep, matches. destruct n as [n |]; [| auto].
  destruct (truth n) eqn:Hn; [reflexivity |].
  now rewrite (get_of_false n _ _ Hn).
Qed.

Lemma get_approach_type_by_priority s h t g :
  _get_approach_type s h t g = approach_type_by_priority s h t g.
Proof.
  unfold _get_approach_type, approach_type_by_priority.
  rewrite (if_dep_matches g s
             (fun l => if len l =? 1 then Some "GO_AROUND" else None))
    by reflexivity.
  rewrite (if_dep_matches t s
             (fun l => if len l =? 1 then Some "TOUCH_AND_GO" else _))
    by reflexivity.
  rewrite (if_dep_matches h s
             (fun l => if len l =? 1 then Some "LANDING" else _))
    by reflexivity.
  reflexivity.
Qed.

Lemma get_approach_type_true s h t g ty :
  _get_approach_type s h t g = Some ty -> truth ty = true.
Proof.
  rewrite get_approach_type_by_priority. unfold approach_type_by_priority.
  repeat match goal with |- context [if ?b then _ else _] => destruct b end;
    intros [= <-]; reflexivity.
Qed.

Lemma len_one {A} (l : list A) :
  (len l =? 1) = true -> exists a, l = [a].
Proof.
  unfold len. intros Hl. apply Z.eqb_eq in Hl.
  destruct l as [| a [| b l]]; simpl in Hl; [lia | eauto | lia].
Qed.

Lemma len_not_one {A} (l : list A) :
  (len l =? 1) = false -> forall a, l <> [a].
Proof. intros Hl a ->. discriminate. Qed.

Lemma unique_pair_some lat_n lon_n s la lo :
  unique_pair lat_n lon_n s = Some (la, lo) <->
  exists kla klo, matches lat_n s = [kla] /\ matches lon_n s = [klo]
                  /\ la = kpv_value kla /\ lo = kpv_value klo.
Proof.
  unfold unique_pair. split.
  - destruct (matches lat_n s) as [| kla [| ? ?]]; try discriminate.
    destruct (matches lon_n s) as [| klo [| ? ?]]; try discriminate.
    intros [= <- <-]. eauto 6.
  - intros (kla & klo & -> & -> & -> & ->). reflexivity.
Qed.

(** One block of [_get_lat_lon], on a pair of nodes, against the unique
    pair of the nodes. *)
Lemma lat_lon_block (lat_n lon_n : option (node KeyPointValue)) s
    (orelse : option Z * option Z) :
  if_dep lat_n
    (fun lat_n' =>
       if_dep lon_n
         (fun lon_n' =>
            let lat_kpvs := get lat_n' (Some s) None in
            let lon_kpvs := get lon_n' (Some s) None in
            if (len lat_kpvs =? 1) && (len lon_kpvs =? 1) then
              match lat_kpvs, lon_kpvs with
              | lat0 :: _, lon0 :: _ =>
                  (Some (kpv_value lat0), Some (kpv_value lon0))
              | _, _ => orelse
              end
            else orelse)
         orelse)
    orelse =
  match unique_pair lat_n lon_n s with
  | Some (la, lo) => (Some la, Some lo)
  | None => orelse
  end.
Proof.
  unfold if_dep, unique_pair, matches.
  destruct lat_n as [lat_n |]; [| reflexivity].
  destruct (truth lat_n) eqn:Hlat;
    [| now rewrite (get_of_false lat_n _ _ Hlat)].
  destruct lon_n as [lon_n |];
    [| now destruct (get lat_n (Some s) None) as [| ? [| ? ?]]].
  destruct (truth lon_n) eqn:Hlon.
  - cbv zeta.
    destruct (get lat_n (Some s) None) as [| la [| ? ?]];
      destruct (get lon_n (Some s) None) as [| lo [| ? ?]];
      unfold len; cbn [List.length];
      repeat match goal with
        | |- context [Z.of_nat ?n =? 1] =>
            destruct (Z.eqb_spec (Z.of_nat n) 1); try lia
        end; reflexivity.
  - rewrite (get_of_false lon_n _ _ Hlon).
    now destruct (get lat_n (Some s) None) as [| ? [| ? ?]].
Qed.

Lemma get_lat_lon_approach_unique s al ao :
  _get_lat_lon_approach s al ao =
  match unique_pair al ao s with
  | Some (la, lo) => (Some la, Some lo)
  | None => (None, None)
  end.
Proof. exact (lat_lon_block al ao s (None, None)). Qed.

Lemma get_lat_lon_by_priority s ll lo al ao :
  _get_lat_lon s ll lo al ao = lat_lon_by_priority s ll lo al ao.
Proof.
  unfold lat_lon_by_priority.
  rewrite <- get_lat_lon_approach_unique.
  exact (lat_lon_block ll lo s (_get_lat_lon_approach s al ao)).
Qed.

End ApproachSources.

(** ** Approaches: the loop of [derive] *)

Section ApproachLoop.
Import Approaches.
Variable api : api_handler.
Variable datetime_of_index : datetime_of_index_t.
Variable i : inputs.

Let approach_type_of (a : SectionItem) : option string :=
  _get_approach_type (section_slice a) (landing_hdg_kpvs i) (touch_and_gos i)
    (go_arounds i).

Let lat_lon_of (a : SectionItem) : option Z * option Z :=
  _get_lat_lon (section_slice a) (landing_lat_kpvs i) (landing_lon_kpvs i)
    (approach_lat_kpvs i) (approach_lon_kpvs i).

Let hdg_of (a : SectionItem) : option Z :=
  _get_hdg (section_slice a) (landing_hdg_kpvs i) (approach_hdg_kpvs i).

(** The record of an approach. *)
Let record_of (a : SectionItem) (airport_id : Z) (rw : option string)
    (ty : string) : approach_record :=
  {| airport := airport_id; runway := rw; type := ty;
     approach_datetime :=
       datetime_of_index (attr_value (start_datetime i))
         (stop (section_slice a)) (frequency (approach_and_landing i)) |}.

Lemma exn_eqb_refl e : exn_eqb e e = true.
Proof. now destruct e. Qed.

Lemma exn_eqb_eq e e' : exn_eqb e e' = true <-> e = e'.
Proof. destruct e, e'; simpl; split; congruence. Qed.

(** An approach without a type is skipped with a warning. *)
Lemma derive_body_undecided acc a :
  approach_type_of a = None ->
  derive_body api datetime_of_index i acc a = ([Logged WARNING], inr acc).
Proof.
  unfold approach_type_of, derive_body. intros ->. reflexivity.
Qed.

(** An approach without a position, or with a coordinate that is 0, is
    skipped with a warning. *)
Lemma derive_body_no_position acc a lat lon :
  lat_lon_of a = (lat, lon) ->
  truth lat = false \/ truth lon = false ->
  derive_body api datetime_of_index i acc a = ([Logged WARNING], inr acc).
Proof.
  unfold lat_lon_of, derive_body. intros -> Hll.
  destruct (_get_approach_type _ _ _ _) as [ty |]; [| reflexivity].
  destruct (negb (truth ty)); [reflexivity |].
  destruct lat as [lat |], lon as [lon |]; try reflexivity.
  cbn [truth truth_option] in Hll.
  destruct Hll as [-> | ->]; rewrite ?orb_true_r; reflexivity.
Qed.

(** An approach whose airport is not found is skipped with a warning. *)
Lemma derive_body_airport_not_found acc a ty lat lon :
  approach_type_of a = Some ty ->
  lat_lon_of a = (Some lat, Some lon) -> lat <> 0 -> lon <> 0 ->
  nearest_airport api lat lon = inl NotFoundError ->
  derive_body api datetime_of_index i acc a =
  ([Called (nearest_airport_call lat lon); Logged WARNING], inr acc).
Proof.
  unfold approach_type_of, lat_lon_of, derive_body.
  intros Hty -> Hlat Hlon Hap.
  rewrite Hty, (get_approach_type_true _ _ _ _ _ Hty).
  unfold truth at 1 2, truth_int.
  apply Z.eqb_neq in Hlat, Hlon. rewrite Hlat, Hlon. simpl.
  unfold get_nearest_airport. rewrite Hap. reflexivity.
Qed.

(** An approach whose heading is not available, or is 0, gets a record
    without runway, and no runway is looked up. *)
Lemma derive_body_no_heading acc a ty lat lon ap hdg :
  approach_type_of a = Some ty ->
  lat_lon_of a = (Some lat, Some lon) -> lat <> 0 -> lon <> 0 ->
  nearest_airport api lat lon = inr ap ->
  hdg_of a = hdg -> truth hdg = false ->
  derive_body api datetime_of_index i acc a =
  ([Called (nearest_airport_call lat lon); Logged INFO],
   inr (acc ++ [record_of a (airport_id ap) None ty])).
Proof.
  unfold approach_type_of, lat_lon_of, hdg_of, derive_body.
  intros Hty -> Hlat Hlon Hap <- Hhdg.
  rewrite Hty, (get_approach_type_true _ _ _ _ _ Hty).
  unfold truth at 1 2, truth_int.
  apply Z.eqb_neq in Hlat, Hlon. rewrite Hlat, Hlon. simpl.
  unfold get_nearest_airport. rewrite Hap.
  destruct (_get_hdg _ _ _) as [h |]; [| reflexivity].
  cbn [truth truth_option] in Hhdg. unfold truth, truth_int in Hhdg |- *.
  rewrite Hhdg. reflexivity.
Qed.

(** An approach whose runway is looked up: the record has the identifier
    of the runway, or no runway, with a warning, when none is found. *)
Lemma derive_body_runway acc a ty lat lon ap hdg :
  approach_type_of a = Some ty ->
  lat_lon_of a = (Some lat, Some lon) -> lat <> 0 -> lon <> 0 ->
  nearest_airport api lat lon = inr ap ->
  hdg_of a = Some hdg -> hdg <> 0 ->
  let kw := runway_kwargs i a lat lon in
  derive_body api datetime_of_index i acc a =
  match nearest_runway api (airport_id ap) hdg kw with
  | inr rw =>
      ([Called (nearest_airport_call lat lon);
        Called (nearest_runway_call (airport_id ap) hdg kw)],
       inr (acc ++ [record_of a (airport_id ap) (Some (identifier rw)) ty]))
  | inl NotFoundError =>
      ([Called (nearest_airport_call lat lon);
        Called (nearest_runway_call (airport_id ap) hdg kw);
        Logged WARNING],
       inr (acc ++ [record_of a (airport_id ap) None ty]))
  | inl e =>
      ([Called (nearest_airport_call lat lon);
        Called (nearest_runway_call (airport_id ap) hdg kw)],
       inl e)
  end.
Proof.
  unfold approach_type_of, lat_lon_of, hdg_of, derive_body.
  intros Hty -> Hlat Hlon Hap -> Hhdg.
  rewrite Hty, (get_approach_type_true _ _ _ _ _ Hty).
  unfold truth at 1 2, truth_int.
  apply Z.eqb_neq in Hlat, Hlon. rewrite Hlat, Hlon. simpl.
  unfold get_nearest_airport. rewrite Hap.
  unfold truth, truth_int. apply Z.eqb_neq in Hhdg. rewrite Hhdg. simpl.
  unfold get_nearest_runway.
  destruct (nearest_runway api (airport_id ap) hdg _) as [[] | rw];
    reflexivity.
Qed.

Lemma derive_loop_app acc l1 l2 :
  derive_loop api datetime_of_index i acc (l1 ++ l2) =
  bind (derive_loop api datetime_of_index i acc l1)
       (fun acc' => derive_loop api datetime_of_index i acc' l2).
Proof.
  revert acc. induction l1 as [| a l1 IH]; intros acc; cbn [derive_loop app].
  - now rewrite bind_ret_l.
  - rewrite bind_assoc.
    destruct (derive_body api datetime_of_index i acc a) as [t [e | acc']];
      simpl; [reflexivity |].
    now rewrite IH.
Qed.

End ApproachLoop.

(** ** Case analysis on a rule *)

(** Split on the innermost scrutinee of the goal. *)
Ltac break_match :=
  match goal with
  | |- context [match ?x with _ => _ end] =>
      lazymatch x with
      | context [match _ with _ => _ end] => fail
      | _ => destruct x eqn:?
      end
  end.

Lemma getitem_raises {A} (l : list A) i e :
  getitem l i = inl e -> e = IndexError.
Proof.
  unfold getitem. destruct (_ && _); [destruct (nth_error _ _) |];
    congruence.
Qed.

Lemma ptp_raises a e : ptp a = inl e -> e = ValueError.
Proof. destruct a; simpl; congruence. Qed.

(** Read the pairs and results the case analysis has produced. *)
Ltac read_results :=
  repeat match goal with
    | H : (_, _) = (_, _) |- _ => injection H as <- <-
    | H : inl _ = inl _ |- _ => injection H as <-
    | H : inr _ = inr _ |- _ => injection H as <-
    | H : getitem _ _ = inl _ |- _ => apply getitem_raises in H; subst
    | H : ptp _ = inl _ |- _ => apply ptp_raises in H; subst
    | H : exn_eqb ?e _ = false |- _ =>
        destruct e; try discriminate H; clear H
    end.

(** Unfold the operations of the monad in a rule and split on every
    test. *)
Ltac run_rule :=
  unfold get_nearest_airport, get_nearest_runway, airport_value_id,
    try_except, try_except_else, if_dep, deref, lift, set_flight_attr,
    logging_warning, logging_info, bind, ret, raise;
  repeat first [progress cbv beta iota zeta | break_match]; read_results;
  cbn [trace outcome fst snd commits calls logged app List.length].

Section ApproachShape.
Import Approaches.
Variable api : api_handler.
Variable datetime_of_index : datetime_of_index_t.
Variable i : inputs.

(** An iteration commits nothing, lets no [NotFoundError] out, and leaves
    the list as it is or appends one record. *)
Lemma derive_body_shape acc a :
  let m := derive_body api datetime_of_index i acc a in
  commits (trace m) = []
  /\ outcome m <> inl NotFoundError
  /\ (forall acc', outcome m = inr acc' ->
        acc' = acc \/ exists r, acc' = acc ++ [r]).
Proof.
  cbv zeta. unfold derive_body. run_rule.
  all: split; [reflexivity | split; [congruence | intros ? [= <-]; eauto]].
Qed.

(** An iteration whose heading is [None] or 0 looks up no runway, and the
    record it appends, if any, has no runway. *)
Lemma derive_body_heading_false acc a :
  truth (_get_hdg (section_slice a) (landing_hdg_kpvs i)
           (approach_hdg_kpvs i)) = false ->
  let m := derive_body api datetime_of_index i acc a in
  (forall c, In c (calls (trace m)) ->
     exists lat lon, c = nearest_airport_call lat lon)
  /\ (forall acc', outcome m = inr acc' ->
        acc' = acc \/ exists r, acc' = acc ++ [r] /\ runway r = None).
Proof.
  cbv zeta. unfold derive_body. intros Hhdg. revert Hhdg.
  destruct (_get_hdg _ _ _) as [h |];
    intros Hhdg; cbn [truth truth_option] in Hhdg; cbv beta iota zeta;
    rewrite ?Hhdg; cbn [negb]; run_rule.
  all: split;
    [ intros c Hc; simpl in Hc; intuition (subst; eauto)
    | intros ? [= <-]; eauto ].
Qed.

Lemma derive_loop_shape acc l :
  let m := derive_loop api datetime_of_index i acc l in
  commits (trace m) = [] /\ outcome m <> inl NotFoundError.
Proof.
  cbv zeta. revert acc. induction l as [| a l IH]; intros acc.
  - split; [reflexivity | discriminate].
  - cbn [derive_loop]. rewrite trace_bind, outcome_bind, commits_app.
    destruct (derive_body_shape acc a) as (Hc & Hn & _). rewrite Hc.
    destruct (outcome (derive_body api datetime_of_index i acc a))
      as [e | acc'] eqn:E.
    + split; [reflexivity | assumption].
    + apply IH.
Qed.

(** An approach that an iteration leaves out is left out of the list. *)
Lemma derive_loop_skip acc pre a post t :
  (forall acc', derive_body api datetime_of_index i acc' a = (t, inr acc')) ->
  outcome (derive_loop api datetime_of_index i acc (pre ++ a :: post)) =
  outcome (derive_loop api datetime_of_index i acc (pre ++ post)).
Proof.
  intros Hskip. rewrite !derive_loop_app, !outcome_bind.
  destruct (outcome (derive_loop api datetime_of_index i acc pre))
    as [e | acc']; [reflexivity |].
  cbn [derive_loop]. rewrite outcome_bind, Hskip. reflexivity.
Qed.

End ApproachShape.

(** ** The approach type and the position of an approach *)

(** C4. The approach type is decided by the first discriminator, in the
    order landing heading, touch and go, go around, that has exactly one
    item within the approach interval: it is a single type or none, it is
    LANDING when all three have exactly one item, and an approach for which
    no discriminator has exactly one item is left out of the list of
    approaches. *)
Theorem approach_type_first_exactly_one_match :
  forall (s : slice) (h : option (node KeyPointValue))
         (t g : option (node KeyTimeInstance)),
    Approaches._get_approach_type s h t g = approach_type_by_priority s h t g
    /\ (len (matches h s) = 1 -> len (matches t s) = 1 ->
        len (matches g s) = 1 ->
        Approaches._get_approach_type s h t g = Some "LANDING")
    /\ (forall api doi (i : Approaches.inputs) (a : SectionItem),
          h = Approaches.landing_hdg_kpvs i ->
          t = Approaches.touch_and_gos i ->
          g = Approaches.go_arounds i ->
          s = section_slice a ->
          len (matches h s) <> 1 -> len (matches t s) <> 1 ->
          len (matches g s) <> 1 ->
          (forall acc,
             Approaches.derive_body api doi i acc a
             = ([Logged WARNING], inr acc))
          /\ (forall acc pre post,
                outcome (Approaches.derive_loop api doi i acc
                           (pre ++ a :: post))
                = outcome (Approaches.derive_loop api doi i acc
                             (pre ++ post)))).
Proof.
  intros s h t g. split; [apply get_approach_type_by_priority |]. split.
  - intros Hh _ _. rewrite get_approach_type_by_priority.
    unfold approach_type_by_priority. now rewrite Hh.
  - intros api doi i a -> -> -> -> Hh Ht Hg.
    assert (Hbody : forall acc,
               Approaches.derive_body api doi i acc a
               = ([Logged WARNING], inr acc)).
    { intros acc. apply derive_body_undecided.
      rewrite get_approach_type_by_priority. unfold approach_type_by_priority.
      apply Z.eqb_neq in Hh, Ht, Hg. now rewrite Hh, Ht, Hg. }
    split; [exact Hbody |].
    intros acc pre post. now apply derive_loop_skip with (t := [Logged WARNING]).
Qed.

(** C8. The position of an approach is the pair of the landing latitude
    and longitude whenever each has exactly one item within the approach
    interval; only otherwise it is the pair of the approach latitude and
    longitude, when each has exactly one item there; and it is the pair of
    [None]s when neither source qualifies. A node that is not available
    has no item. *)
Theorem lat_lon_prefers_landing :
  forall (s : slice)
         (landing_lat landing_lon approach_lat approach_lon
            : option (node KeyPointValue)),
    Approaches._get_lat_lon s landing_lat landing_lon approach_lat approach_lon
    = match unique_pair landing_lat landing_lon s with
      | Some (la, lo) => (Some la, Some lo)
      | None =>
          match unique_pair approach_lat approach_lon s with
          | Some (la, lo) => (Some la, Some lo)
          | None => (None, None)
          end
      end.
Proof. intros. exact (get_lat_lon_by_priority _ _ _ _ _). Qed.

Lemma approach_type_first_exactly_one_match_witness :
  Approaches.derive_body Example.api_heathrow Example.doi
    Example.no_discriminator [] Example.approach0
  = ([Logged WARNING], inr []).
Proof.
  destruct (approach_type_first_exactly_one_match
              (section_slice Example.approach0)
              (Approaches.landing_hdg_kpvs Example.no_discriminator)
              (Approaches.touch_and_gos Example.no_discriminator)
              (Approaches.go_arounds Example.no_discriminator))
    as (_ & _ & H).
  destruct (H Example.api_heathrow Example.doi Example.no_discriminator
              Example.approach0 eq_refl eq_refl eq_refl eq_refl) as [Hb _].
  - vm_compute. discriminate.
  - vm_compute. discriminate.
  - vm_compute. discriminate.
  - exact (Hb []).
Defined.

(** ** A value of 0 in the Approaches rule *)

(** C10. In the Approaches rule a value of 0 is treated as a missing value.
    An approach whose position has a latitude or a longitude of 0 is left
    out of the list with the warning of a missing position. An approach
    whose heading is 0 has no runway looked up: the only lookups are airport
    lookups, a record appended for it has no runway, and when its type is
    decided, its position is not 0 and its airport is found, the record
    without runway is appended. *)
Theorem zero_value_conflated_with_absence :
  forall api doi (i : Approaches.inputs) (a : SectionItem),
    let lat_lon :=
      Approaches._get_lat_lon (section_slice a)
        (Approaches.landing_lat_kpvs i) (Approaches.landing_lon_kpvs i)
        (Approaches.approach_lat_kpvs i) (Approaches.approach_lon_kpvs i) in
    let hdg :=
      Approaches._get_hdg (section_slice a) (Approaches.landing_hdg_kpvs i)
        (Approaches.approach_hdg_kpvs i) in
    let ty :=
      Approaches._get_approach_type (section_slice a)
        (Approaches.landing_hdg_kpvs i) (Approaches.touch_and_gos i)
        (Approaches.go_arounds i) in
    (forall lat lon,
        lat_lon = (Some lat, Some lon) -> lat = 0 \/ lon = 0 ->
        (forall acc,
           Approaches.derive_body api doi i acc a
           = ([Logged WARNING], inr acc))
        /\ (forall acc pre post,
              outcome (Approaches.derive_loop api doi i acc (pre ++ a :: post))
              = outcome (Approaches.derive_loop api doi i acc (pre ++ post))))
    /\ (lat_lon = (None, None) ->
        forall acc,
          Approaches.derive_body api doi i acc a = ([Logged WARNING], inr acc))
    /\ (hdg = Some 0 ->
        (forall acc c,
            In c (calls (trace (Approaches.derive_body api doi i acc a))) ->
            exists lat lon, c = nearest_airport_call lat lon)
        /\ (forall acc acc',
              outcome (Approaches.derive_body api doi i acc a) = inr acc' ->
              acc' = acc
              \/ exists r, acc' = acc ++ [r] /\ Approaches.runway r = None)
        /\ (forall acc t lat lon ap,
              ty = Some t -> lat_lon = (Some lat, Some lon) ->
              lat <> 0 -> lon <> 0 ->
              nearest_airport api lat lon = inr ap ->
              Approaches.derive_body api doi i acc a
              = ([Called (nearest_airport_call lat lon); Logged INFO],
                 inr (acc ++
                      [{| Approaches.airport := airport_id ap;
                          Approaches.runway := None;
                          Approaches.type := t;
                          Approaches.approach_datetime :=
                            doi (attr_value (Approaches.start_datetime i))
                              (stop (section_slice a))
                              (frequency (Approaches.approach_and_landing i))
                       |}])))).
Proof.
  intros api doi i a lat_lon hdg ty. subst lat_lon hdg ty.
  split; [| split].
  - intros lat lon Hll Hz.
    assert (Hbody : forall acc,
               Approaches.derive_body api doi i acc a
               = ([Logged WARNING], inr acc)).
    { intros acc. apply derive_body_no_position with (1 := Hll).
      cbn [truth truth_option]. unfold truth, truth_int.
      destruct Hz as [-> | ->]; auto. }
    split; [exact Hbody |].
    intros acc pre post. now apply derive_loop_skip with (t := [Logged WARNING]).
  - intros Hll acc. apply derive_body_no_position with (1 := Hll). now left.
  - intros Hhdg.
    assert (Hfalse : truth (Approaches._get_hdg (section_slice a)
                              (Approaches.landing_hdg_kpvs i)
                              (Approaches.approach_hdg_kpvs i)) = false)
      by now rewrite Hhdg.
    split; [| split].
    + intros acc. apply (derive_body_heading_false api doi i acc a Hfalse).
    + intros acc. apply (derive_body_heading_false api doi i acc a Hfalse).
    + intros acc t lat lon ap Ht Hll Hlat Hlon Hap.
      now apply derive_body_no_heading with (hdg := Some 0).
Qed.

Lemma zero_value_conflated_with_absence_witness :
  Approaches.derive_body Example.api_heathrow Example.doi
    (Example.landing_at 0 7 270) [] Example.approach0
  = ([Logged WARNING], inr [])
  /\ Approaches.derive_body Example.api_heathrow Example.doi
       (Example.landing_at 51 7 0) [] Example.approach0
     = ([Called (nearest_airport_call 51 7); Logged INFO],
        inr [{| Approaches.airport := 2383;
                Approaches.runway := None;
                Approaches.type := "LANDING";
                Approaches.approach_datetime :=
                  {| timestamp := 100000000 |} |}]).
Proof.
  split.
  - destruct (zero_value_conflated_with_absence Example.api_heathrow
                Example.doi (Example.landing_at 0 7 270) Example.approach0)
      as (H & _ & _).
    destruct (H 0 7) as [Hb _]; [reflexivity | now left | exact (Hb [])].
  - destruct (zero_value_conflated_with_absence Example.api_heathrow
                Example.doi (Example.landing_at 51 7 0) Example.approach0)
      as (_ & _ & H).
    destruct H as (_ & _ & Hr); [reflexivity |].
    apply (Hr [] "LANDING" 51 7 Example.heathrow);
      [reflexivity | reflexivity | lia | lia | reflexivity].
Defined.

(** ** Duration *)

(** C6. The duration is the landing datetime minus the takeoff datetime, in
    seconds, when both attributes have a value; it is [None] when either
    has none; and deriving it again from the same inputs leaves the
    attribute as the first derivation set it, whatever it was before. *)
Theorem duration_is_landing_minus_takeoff :
  forall (takeoff_dt landing_dt : Attr (option datetime)),
    let run := Duration.derive takeoff_dt landing_dt in
    (forall takeoff landing,
        attr_value takeoff_dt = Some takeoff ->
        attr_value landing_dt = Some landing ->
        run = ([Commit (Some (Qmake (timestamp landing - timestamp takeoff)
                                1000000))], inr tt))
    /\ (attr_value takeoff_dt = None \/ attr_value landing_dt = None ->
        run = ([Commit None], inr tt))
    /\ (forall old old',
          flight_attr (flight_attr old (trace run)) (trace run)
          = flight_attr old' (trace run)).
Proof.
  intros takeoff_dt landing_dt run. subst run. unfold Duration.derive.
  split; [| split].
  - intros takeoff landing -> ->. reflexivity.
  - intros [-> | ->]; [destruct (attr_value landing_dt) | ]; reflexivity.
  - intros old old'.
    destruct (attr_value landing_dt) as [l |],
             (attr_value takeoff_dt) as [t |]; reflexivity.
Qed.

Lemma duration_is_landing_minus_takeoff_witness :
  Duration.derive ExampleFlight.takeoff_dt ExampleFlight.landing_dt
  = ([Commit (Some (Qmake 5400500000 1000000))], inr tt)
  /\ Duration.derive (ExampleFlight.no_dt "FDR Takeoff Datetime")
       ExampleFlight.landing_dt
     = ([Commit None], inr tt).
Proof.
  split.
  - apply (proj1 (duration_is_landing_minus_takeoff
                    ExampleFlight.takeoff_dt ExampleFlight.landing_dt)
             {| timestamp := 1000000000 |} {| timestamp := 6400500000 |});
      reflexivity.
  - apply (proj1 (proj2 (duration_is_landing_minus_takeoff
                           (ExampleFlight.no_dt "FDR Takeoff Datetime")
                           ExampleFlight.landing_dt))).
    left. reflexivity.
Defined.

(** ** Flight type *)

Section FlightTypeRules.
Import FlightType.

Lemma get_first_all {A} `{Item A} (n : node A) :
  get_first n None None = earliest (items n).
Proof. unfold get_first. now rewrite get_all. Qed.

Lemma get_last_all {A} `{Item A} (n : node A) :
  get_last n None None = latest (items n).
Proof. unfold get_last. now rewrite get_all. Qed.

Lemma get_first_truth {A} `{Item A} (n : node A) a :
  get_first n None None = Some a -> truth n = true.
Proof.
  rewrite get_first_all. unfold truth, truth_node, truth, truth_list.
  destruct (items n); [discriminate | reflexivity].
Qed.

Lemma get_first_some {A} `{Item A} (n : node A) :
  truth n = true -> exists a, get_first n None None = Some a.
Proof.
  intros Hn. rewrite get_first_all.
  apply earliest_some, truth_node_items, Hn.
Qed.

Lemma get_last_some {A} `{Item A} (n : node A) :
  truth n = true -> exists a, get_last n None None = Some a.
Proof.
  intros Hn. rewrite get_last_all.
  apply latest_some, truth_node_items, Hn.
Qed.

(** The first three tests of [derive] on a flight with a liftoff and a
    touchdown in order. *)
Lemma derive_both (i : inputs) los tds fl ft :
  liftoffs i = Some los -> touchdowns i = Some tds ->
  get_first los None None = Some fl -> get_first tds None None = Some ft ->
  ~ index ft < index fl ->
  derive i =
  if_dep (touch_and_gos i)
    (fun tgs =>
       last_touchdown <- deref (get_last tds None None) ;;
       last_touch_and_go <- deref (get_last tgs None None) ;;
       if index last_touchdown <=? index last_touch_and_go then
         logging_warning ;;; set_flight_attr "LIFTOFF_ONLY"
       else set_flight_attr (complete_or_override i))
    (set_flight_attr (complete_or_override i)).
Proof.
  intros Hlo Htd Hfl Hft Hord. unfold derive.
  rewrite Hlo, Htd. cbn [truth truth_option].
  rewrite (get_first_truth _ _ Hfl), (get_first_truth _ _ Hft).
  cbn [negb andb deref]. rewrite !bind_ret_l, Hft, Hfl.
  cbn [deref]. rewrite !bind_ret_l.
  destruct (Z.ltb_spec (index ft) (index fl)); [contradiction |].
  reflexivity.
Qed.

End FlightTypeRules.

(** C9. On a flight with liftoffs and touchdowns whose first touchdown is
    not before the first liftoff, a touch and go at or after the last
    touchdown makes the flight type LIFTOFF_ONLY. In particular, with one
    touchdown at 500 and a touch and go at 600 the type is LIFTOFF_ONLY for
    every node of liftoffs that starts at or before 500, and it is not
    COMPLETE. *)
Theorem trailing_touch_and_go_is_liftoff_only :
  (forall (i : FlightType.inputs) los tds tgs fl ft tg,
      FlightType.liftoffs i = Some los ->
      FlightType.touchdowns i = Some tds ->
      get_first los None None = Some fl ->
      get_first tds None None = Some ft ->
      ~ index ft < index fl ->
      FlightType.touch_and_gos i = Some tgs ->
      In tg (items tgs) ->
      (forall td, In td (items tds) -> index td <= index tg) ->
      FlightType.derive i
      = ([Logged WARNING; Commit "LIFTOFF_ONLY"], inr tt))
  /\ (forall afr fast gs los fl,
        get_first los None None = Some fl -> index fl <= 500 ->
        commits (trace (FlightType.derive
                          (ExampleFlight.trailing_touch_and_go afr fast gs
                             los)))
        = ["LIFTOFF_ONLY"]).
Proof.
  assert (General : forall (i : FlightType.inputs) los tds tgs fl ft tg,
      FlightType.liftoffs i = Some los ->
      FlightType.touchdowns i = Some tds ->
      get_first los None None = Some fl ->
      get_first tds None None = Some ft ->
      ~ index ft < index fl ->
      FlightType.touch_and_gos i = Some tgs ->
      In tg (items tgs) ->
      (forall td, In td (items tds) -> index td <= index tg) ->
      FlightType.derive i
      = ([Logged WARNING; Commit "LIFTOFF_ONLY"], inr tt)).
  { intros i los tds tgs fl ft tg Hlo Htd Hfl Hft Hord Htg Hin Hafter.
    rewrite (derive_both i los tds fl ft) by assumption.
    rewrite Htg. unfold if_dep.
    assert (Htgs : truth tgs = true).
    { unfold truth, truth_node, truth, truth_list.
      destruct (items tgs); [contradiction | reflexivity]. }
    rewrite Htgs.
    destruct (get_last_some tds (get_first_truth _ _ Hft)) as [ltd Hltd].
    destruct (get_last_some tgs Htgs) as [ltg Hltg].
    rewrite Hltd, Hltg. cbn [deref]. rewrite !bind_ret_l.
    rewrite get_last_all in Hltd, Hltg.
    apply latest_spec in Hltd, Hltg.
    destruct Hltd as [Hltd _], Hltg as [_ Hltg].
    specialize (Hafter _ Hltd). specialize (Hltg _ Hin).
    destruct (Z.leb_spec (index ltd) (index ltg)); [reflexivity | lia]. }
  split; [exact General |].
  intros afr fast gs los fl Hfl Hle.
  rewrite (General _ los (Example.node_of "Touchdown" [Example.kti 500])
             (Example.node_of "Touch And Go" [Example.kti 600])
             fl (Example.kti 500) (Example.kti 600));
    try reflexivity.
  - exact Hfl.
  - change (index (Example.kti 500)) with 500. lia.
  - now left.
  - intros td [<- | []]. change (500 <= 600). lia.
Qed.

Lemma trailing_touch_and_go_is_liftoff_only_witness :
  commits (trace (FlightType.derive
                    (ExampleFlight.trailing_touch_and_go None None None
                       (Example.node_of "Liftoff" [Example.kti 100]))))
  = ["LIFTOFF_ONLY"].
Proof.
  apply (proj2 trailing_touch_and_go_is_liftoff_only None None None
           (Example.node_of "Liftoff" [Example.kti 100]) (Example.kti 100)).
  - reflexivity.
  - change (100 <= 500). lia.
Defined.

(** The flight type of a flight with a liftoff and a touchdown in order and
    no touch and go: the record type when the list of [derive] has it,
    COMPLETE otherwise. *)
Lemma derive_complete_or_override (i : FlightType.inputs) los tds fl ft :
  FlightType.liftoffs i = Some los -> FlightType.touchdowns i = Some tds ->
  get_first los None None = Some fl -> get_first tds None None = Some ft ->
  ~ index ft < index fl ->
  truth (FlightType.touch_and_gos i) = false ->
  FlightType.derive i = ([Commit (complete_or_override i)], inr tt).
Proof.
  intros Hlo Htd Hfl Hft Hord Htg.
  rewrite (derive_both i los tds fl ft) by assumption.
  unfold if_dep. destruct (FlightType.touch_and_gos i) as [tgs |];
    [| reflexivity].
  cbn [truth truth_option] in Htg. now rewrite Htg.
Qed.

(** C2. The record types POSITIONING and TEST do not override the flight
    type: the list of [derive] holds the single string POSITIONINGTEST in
    their place. On a flight with a liftoff at 100 and a touchdown at 500
    the flight type is COMPLETE for the record types POSITIONING and TEST,
    and it is the record type for FERRY, LINE_TRAINING, TRAINING and
    POSITIONINGTEST. *)
Theorem positioning_and_test_do_not_override :
  FlightType.derive (ExampleFlight.complete_flight (Some "POSITIONING"))
  = ([Commit "COMPLETE"], inr tt)
  /\ FlightType.derive (ExampleFlight.complete_flight (Some "TEST"))
     = ([Commit "COMPLETE"], inr tt)
  /\ FlightType.derive
       (ExampleFlight.complete_flight (Some "POSITIONINGTEST"))
     = ([Commit "POSITIONINGTEST"], inr tt)
  /\ FlightType.derive (ExampleFlight.complete_flight (Some "FERRY"))
     = ([Commit "FERRY"], inr tt)
  /\ FlightType.derive (ExampleFlight.complete_flight (Some "LINE_TRAINING"))
     = ([Commit "LINE_TRAINING"], inr tt)
  /\ FlightType.derive (ExampleFlight.complete_flight (Some "TRAINING"))
     = ([Commit "TRAINING"], inr tt)
  /\ FlightType.derive (ExampleFlight.complete_flight None)
     = ([Commit "COMPLETE"], inr tt).
Proof. repeat split; vm_compute; reflexivity. Qed.

(** ** Pilot flying *)

Section PilotRules.
Import Pilot.

(** The autopilot block sets nothing: both flags are the flag of channel 1,
    and no flag is both true and false. *)
Lemma autopilot_block_sets_nothing
    (pick : node KeyPointValue -> option KeyPointValue) (i : inputs) :
  (forall n, truth n = true -> exists k, pick n = Some k) ->
  autopilot_block pick i = ([], inr tt).
Proof.
  intros Hpick. unfold autopilot_block.
  destruct (autopilot1 i) as [ap1 |]; [| reflexivity].
  destruct (autopilot2 i) as [ap2 |]; [| reflexivity].
  destruct (truth ap1) eqn:H1; [| reflexivity].
  destruct (truth ap2); [| reflexivity]. cbn [andb].
  destruct (Hpick ap1 H1) as [k ->].
  cbn [truth truth_option truth_kpv negb orb deref]. rewrite !bind_ret_l.
  destruct (truth (kpv_value k)); reflexivity.
Qed.

Lemma autopilot_first_sets_nothing (i : inputs) :
  autopilot_block (fun n => get_first n None None) i = ([], inr tt).
Proof.
  apply autopilot_block_sets_nothing. intros n. apply get_first_some.
Qed.

Lemma autopilot_last_sets_nothing (i : inputs) :
  autopilot_block (fun n => get_last n None None) i = ([], inr tt).
Proof.
  apply autopilot_block_sets_nothing. intros n. apply get_last_some.
Qed.

(** With the body of [_controls_in_use] run on the arguments of the call:
    when both seats move their controls, [derive] warns, sets [None] and
    goes on to the autopilot block. *)
Lemma derive_static_both_active_runs_autopilot
    (pick : node KeyPointValue -> option KeyPointValue) (i : inputs)
    pc rc pf rf tk t :
  pitch_captain i = Some pc -> roll_captain i = Some rc ->
  pitch_fo i = Some pf -> roll_fo i = Some rf -> sections i = Some tk ->
  get_first tk None None = Some t ->
  _controls_in_use (section_slice t) pc rc = ret true ->
  _controls_in_use (section_slice t) pf rf = ret true ->
  derive_with _controls_in_use pick i =
  (logging_warning ;;; set_flight_attr None ;;; autopilot_block pick i).
Proof.
  intros H1 H2 H3 H4 H5 Ht Hc Hf. unfold derive_with.
  rewrite H1, H2, H3, H4, H5.
  cbn [truth truth_option truth_parameter andb].
  rewrite (get_first_truth _ _ Ht), Ht.
  cbn [truth truth_option truth_section negb deref]. rewrite bind_ret_l.
  rewrite Hc, Hf, !bind_ret_l. reflexivity.
Qed.

(** As the classes call [_controls_in_use]: whenever the four control
    parameters and a section are available, [derive] raises [TypeError] and
    commits nothing. *)
Lemma derive_raises_when_controls_available
    (pick : node KeyPointValue -> option KeyPointValue) (i : inputs)
    pc rc pf rf tk :
  pitch_captain i = Some pc -> roll_captain i = Some rc ->
  pitch_fo i = Some pf -> roll_fo i = Some rf -> sections i = Some tk ->
  truth tk = true ->
  derive_with self_controls_in_use pick i = ([], inl TypeError).
Proof.
  intros H1 H2 H3 H4 H5 Htk. unfold derive_with.
  rewrite H1, H2, H3, H4, H5.
  cbn [truth truth_option truth_parameter andb]. rewrite Htk.
  destruct (get_first_some tk Htk) as [t ->]. reflexivity.
Qed.

(** The trace of [_controls_in_use] is empty. *)
Lemma controls_in_use_trace s pitch roll :
  trace (_controls_in_use s pitch roll) = [].
Proof. unfold _controls_in_use. run_rule. all: reflexivity. Qed.

(** [derive] commits at most once, for every meaning of the call of
    [_controls_in_use] that commits nothing, when the autopilot block sets
    nothing. *)
Lemma derive_with_at_most_one_commit controls_in_use pick (i : inputs) :
  (forall s p r, commits (trace (controls_in_use s p r)) = []) ->
  autopilot_block pick i = ([], inr tt) ->
  at_most_one_commit (derive_with controls_in_use pick i).
Proof.
  intros Hc Ha. unfold at_most_one_commit, derive_with. rewrite Ha.
  destruct (pitch_captain i) as [pc |]; [| cbn; lia].
  destruct (roll_captain i) as [rc |]; [| cbn; lia].
  destruct (pitch_fo i) as [pf |]; [| cbn; lia].
  destruct (roll_fo i) as [rf |]; [| cbn; lia].
  destruct (sections i) as [tk |]; [| cbn; lia].
  destruct (_ && truth tk); [| cbn; lia].
  destruct (get_first tk None None) as [t |]; [| cbn; lia].
  cbn [truth truth_option truth_section negb deref]. rewrite bind_ret_l.
  pose proof (Hc (section_slice t) pc rc) as H1.
  pose proof (Hc (section_slice t) pf rf) as H2.
  destruct (controls_in_use (section_slice t) pc rc) as [t1 [e1 | cf]];
    cbn [trace fst] in H1; cbn [bind];
    [cbn [trace fst]; rewrite H1; cbn; lia |].
  destruct (controls_in_use (section_slice t) pf rf) as [t2 [e2 | ff]];
    cbn [trace fst] in H2.
  - cbn [bind trace fst]. rewrite commits_app, H1, H2. cbn; lia.
  - destruct cf, ff;
      cbn [andb bind set_flight_attr logging_warning trace fst app];
      rewrite !commits_app, H1, H2; cbn; lia.
Qed.

End PilotRules.

(** C1. When both seats move their controls during the takeoff (or
    landing) section, [derive] does not commit [None]: the call
    [self._controls_in_use(..)] raises [TypeError] and nothing is committed.
    With the body of [_controls_in_use] run on the arguments of the call,
    [None] is committed, and a seat is committed when one seat only moves
    its controls. *)
Theorem both_seats_active_raises :
  TakeoffPilot.derive ExamplePilot.both_active = ([], inl TypeError)
  /\ LandingPilot.derive ExamplePilot.both_active = ([], inl TypeError)
  /\ TakeoffPilot.derive ExamplePilot.captain_active = ([], inl TypeError)
  /\ TakeoffPilot.derive_static ExamplePilot.both_active
     = ([Logged WARNING; Commit None], inr tt)
  /\ LandingPilot.derive_static ExamplePilot.both_active
     = ([Logged WARNING; Commit None], inr tt)
  /\ TakeoffPilot.derive_static ExamplePilot.captain_active
     = ([Commit (Some "Captain")], inr tt).
Proof. repeat split; vm_compute; reflexivity. Qed.

(** C3. The autopilot block never commits a seat: it compares the flag of
    channel 1 with itself. With no control parameter available, [derive]
    commits nothing when only channel 2 is engaged, and nothing when only
    channel 1 is; with the controls at rest and the body of
    [_controls_in_use] run, the [None] of the controls stands. *)
Theorem autopilot_never_commits_a_seat :
  (forall i, Pilot.autopilot_block (fun n => get_first n None None) i
             = ([], inr tt))
  /\ (forall i, Pilot.autopilot_block (fun n => get_last n None None) i
                = ([], inr tt))
  /\ TakeoffPilot.derive (ExamplePilot.autopilot_only 0 1) = ([], inr tt)
  /\ LandingPilot.derive (ExamplePilot.autopilot_only 0 1) = ([], inr tt)
  /\ TakeoffPilot.derive (ExamplePilot.autopilot_only 1 0) = ([], inr tt)
  /\ LandingPilot.derive (ExamplePilot.autopilot_only 1 0) = ([], inr tt)
  /\ TakeoffPilot.derive_static (ExamplePilot.controls_at_rest 0 1)
     = ([Commit None; Logged WARNING], inr tt)
  /\ LandingPilot.derive_static (ExamplePilot.controls_at_rest 0 1)
     = ([Commit None; Logged WARNING], inr tt).
Proof.
  split; [exact autopilot_first_sets_nothing |].
  split; [exact autopilot_last_sets_nothing |].
  repeat split; vm_compute; reflexivity.
Qed.

(** ** Commits of the rules *)

Section Commits.

(** Close a goal on the number of commits of a rule by cases. *)
Ltac count_commits :=
  unfold at_most_one_commit; run_rule; lia.

Lemma approaches_commit api doi (i : Approaches.inputs) :
  commits (trace (Approaches.derive api doi i)) =
  match outcome (Approaches.derive_loop api doi i []
                   (items (Approaches.approach_and_landing i))) with
  | inr approaches => [approaches]
  | inl _ => []
  end.
Proof.
  unfold Approaches.derive. rewrite trace_bind, commits_app.
  destruct (derive_loop_shape api doi i []
              (items (Approaches.approach_and_landing i))) as [-> _].
  now destruct (outcome _).
Qed.

Lemma approaches_once api doi i :
  at_most_one_commit (Approaches.derive api doi i).
Proof.
  unfold at_most_one_commit. rewrite approaches_commit.
  destruct (outcome _); simpl; lia.
Qed.

Lemma duration_once tk ld : at_most_one_commit (Duration.derive tk ld).
Proof. unfold Duration.derive. count_commits. Qed.

Lemma flight_type_once i : at_most_one_commit (FlightType.derive i).
Proof. unfold FlightType.derive. count_commits. Qed.

Lemma landing_airport_once api la lo :
  at_most_one_commit (LandingAirport.derive api la lo).
Proof. unfold LandingAirport.derive. count_commits. Qed.

Lemma landing_runway_once api i :
  at_most_one_commit (LandingRunway.derive api i).
Proof. unfold LandingRunway.derive. count_commits. Qed.

Lemma takeoff_airport_once api l la lo :
  at_most_one_commit (TakeoffAirport.derive api l la lo).
Proof. unfold TakeoffAirport.derive. count_commits. Qed.

Lemma takeoff_runway_once api i :
  at_most_one_commit (TakeoffRunway.derive api i).
Proof.
  unfold TakeoffRunway.derive, TakeoffRunway.runway_kwargs. count_commits.
Qed.

Lemma fuel_once pick afr qty : at_most_one_commit (Fuel.derive pick afr qty).
Proof. unfold Fuel.derive. count_commits. Qed.

Lemma gross_weight_once pick gw :
  at_most_one_commit (GrossWeight.derive pick gw).
Proof. unfold GrossWeight.derive. count_commits. Qed.

Lemma datetimes_once doi n (a : Attr datetime) :
  at_most_one_commit (OffBlocksDatetime.derive doi n a)
  /\ at_most_one_commit (OnBlocksDatetime.derive doi n a).
Proof.
  split; unfold OffBlocksDatetime.derive, OnBlocksDatetime.derive;
    count_commits.
Qed.

Lemma takeoff_landing_datetime_once doi n (a : Attr datetime) :
  at_most_one_commit (TakeoffDatetime.derive doi n a)
  /\ at_most_one_commit (LandingDatetime.derive doi a n).
Proof.
  split; unfold TakeoffDatetime.derive, LandingDatetime.derive;
    count_commits.
Qed.

Lemma flight_number_once num : at_most_one_commit (FlightNumber.derive num).
Proof. unfold FlightNumber.derive. count_commits. Qed.

Lemma speed_never weight flap model :
  commits (trace (Speed.derive weight flap)) = []
  /\ commits (trace (Speed.derive_vref model weight flap)) = [].
Proof.
  split; unfold Speed.derive, Speed.derive_vref; run_rule; reflexivity.
Qed.

End Commits.

(** C5. Every rule commits its attribute at most once, on every input: no
    run of a [derive] has two commits. The pilot rules commit at most once
    as the classes call [_controls_in_use] and also with its body run on the
    arguments of the call. The value the Approaches rule commits is the
    list of the completed loop, and nothing is committed by a run that an
    exception ends. *)
Theorem every_rule_commits_at_most_once :
  (forall i, at_most_one_commit (TakeoffPilot.derive i))
  /\ (forall i, at_most_one_commit (LandingPilot.derive i))
  /\ (forall i, at_most_one_commit (TakeoffPilot.derive_static i))
  /\ (forall i, at_most_one_commit (LandingPilot.derive_static i))
  /\ (forall api doi i,
        at_most_one_commit (Approaches.derive api doi i)
        /\ commits (trace (Approaches.derive api doi i))
           = match outcome (Approaches.derive_loop api doi i []
                              (items (Approaches.approach_and_landing i)))
             with
             | inr approaches => [approaches]
             | inl _ => []
             end)
  /\ (forall takeoff_dt landing_dt,
        at_most_one_commit (Duration.derive takeoff_dt landing_dt))
  /\ (forall i, at_most_one_commit (FlightType.derive i))
  /\ (forall api lat lon,
        at_most_one_commit (LandingAirport.derive api lat lon))
  /\ (forall api i, at_most_one_commit (LandingRunway.derive api i))
  /\ (forall api liftoff lat lon,
        at_most_one_commit (TakeoffAirport.derive api liftoff lat lon))
  /\ (forall api i, at_most_one_commit (TakeoffRunway.derive api i))
  /\ (forall now start, at_most_one_commit (AnalysisDatetime.derive now start))
  /\ (forall flight_id, at_most_one_commit (FlightID.derive flight_id))
  /\ (forall num, at_most_one_commit (FlightNumber.derive num))
  /\ (forall doi turning start,
        at_most_one_commit (OffBlocksDatetime.derive doi turning start)
        /\ at_most_one_commit (OnBlocksDatetime.derive doi turning start))
  /\ (forall doi node start,
        at_most_one_commit (TakeoffDatetime.derive doi node start)
        /\ at_most_one_commit (LandingDatetime.derive doi start node))
  /\ (forall afr qty,
        at_most_one_commit (TakeoffFuel.derive afr qty)
        /\ at_most_one_commit (LandingFuel.derive afr qty))
  /\ (forall gross_weight,
        at_most_one_commit (TakeoffGrossWeight.derive gross_weight)
        /\ at_most_one_commit (LandingGrossWeight.derive gross_weight))
  /\ (forall version start, at_most_one_commit (Version.derive version start))
  /\ (forall weight flap model,
        commits (trace (Speed.derive weight flap)) = []
        /\ commits (trace (Speed.derive_vref model weight flap)) = []).
Proof.
  repeat match goal with |- _ /\ _ => split end.
  - intros i. apply derive_with_at_most_one_commit;
      [reflexivity | apply autopilot_first_sets_nothing].
  - intros i. apply derive_with_at_most_one_commit;
      [reflexivity | apply autopilot_last_sets_nothing].
  - intros i. apply derive_with_at_most_one_commit;
      [ intros; unfold TakeoffPilot._controls_in_use;
        now rewrite controls_in_use_trace
      | apply autopilot_first_sets_nothing].
  - intros i. apply derive_with_at_most_one_commit;
      [ intros; unfold LandingPilot._controls_in_use;
        now rewrite controls_in_use_trace
      | apply autopilot_last_sets_nothing].
  - intros. split; [apply approaches_once | apply approaches_commit].
  - intros. apply duration_once.
  - intros. apply flight_type_once.
  - intros. apply landing_airport_once.
  - intros. apply landing_runway_once.
  - intros. apply takeoff_airport_once.
  - intros. apply takeoff_runway_once.
  - intros. unfold at_most_one_commit. simpl. lia.
  - intros. unfold at_most_one_commit. simpl. lia.
  - intros. apply flight_number_once.
  - intros. apply datetimes_once.
  - intros. apply takeoff_landing_datetime_once.
  - intros. split; apply fuel_once.
  - intros. split; apply gross_weight_once.
  - intros. unfold at_most_one_commit. simpl. lia.
  - intros. apply speed_never.
Qed.

(** ** Lookups that find nothing *)

Section NotFound.
Variable api : api_handler.

(** Use the lookups of a trace: a lookup that is in the trace of a case is
    the lookup of that case. *)
Ltac use_lookup :=
  cbn [In];
  intros;
  repeat match goal with
    | H : _ \/ _ |- _ => destruct H
    | H : False |- _ => destruct H
    | H : nearest_airport_call _ _ = nearest_airport_call _ _ |- _ =>
        injection H as ? ?; subst
    | H : nearest_runway_call _ _ _ = nearest_runway_call _ _ _ |- _ =>
        injection H as ? ? ?; subst
    | H : nearest_airport_call _ _ = nearest_runway_call _ _ _ |- _ =>
        discriminate H
    | H : nearest_runway_call _ _ _ = nearest_airport_call _ _ |- _ =>
        discriminate H
    end;
  try congruence; try reflexivity.

Lemma landing_airport_not_found la_n lo_n lat lon :
  let m := LandingAirport.derive api la_n lo_n in
  outcome m <> inl NotFoundError
  /\ (In (nearest_airport_call lat lon) (calls (trace m)) ->
      nearest_airport api lat lon = inl NotFoundError ->
      m = ([Called (nearest_airport_call lat lon); Logged WARNING;
            Commit None], inr tt)).
Proof.
  cbv zeta. unfold LandingAirport.derive. run_rule.
  all: split; [congruence | use_lookup].
Qed.

Lemma takeoff_airport_not_found liftoff latitude longitude lat lon :
  let m := TakeoffAirport.derive api liftoff latitude longitude in
  outcome m <> inl NotFoundError
  /\ (In (nearest_airport_call lat lon) (calls (trace m)) ->
      nearest_airport api lat lon = inl NotFoundError ->
      m = ([Called (nearest_airport_call lat lon); Logged WARNING], inr tt)).
Proof.
  cbv zeta. unfold TakeoffAirport.derive. run_rule.
  all: split; [congruence | use_lookup].
Qed.

Lemma landing_runway_not_found i id hdg kw :
  let m := LandingRunway.derive api i in
  outcome m <> inl NotFoundError
  /\ (In (nearest_runway_call id hdg kw) (calls (trace m)) ->
      nearest_runway api id hdg kw = inl NotFoundError ->
      m = ([Called (nearest_runway_call id hdg kw); Logged WARNING], inr tt)).
Proof.
  cbv zeta. unfold LandingRunway.derive. run_rule.
  all: split; [congruence | use_lookup].
Qed.

Lemma takeoff_runway_not_found i id hdg kw :
  let m := TakeoffRunway.derive api i in
  outcome m <> inl NotFoundError
  /\ (In (nearest_runway_call id hdg kw) (calls (trace m)) ->
      nearest_runway api id hdg kw = inl NotFoundError ->
      m = ([Called (nearest_runway_call id hdg kw); Logged WARNING], inr tt)).
Proof.
  cbv zeta. unfold TakeoffRunway.derive, TakeoffRunway.runway_kwargs.
  run_rule.
  all: split; [congruence | use_lookup].
Qed.

Variable datetime_of_index : datetime_of_index_t.

Lemma approach_airport_not_found (i : Approaches.inputs) acc a lat lon :
  let m := Approaches.derive_body api datetime_of_index i acc a in
  In (nearest_airport_call lat lon) (calls (trace m)) ->
  nearest_airport api lat lon = inl NotFoundError ->
  m = ([Called (nearest_airport_call lat lon); Logged WARNING], inr acc).
Proof.
  cbv zeta. unfold Approaches.derive_body. run_rule.
  all: use_lookup.
Qed.

Lemma approach_runway_not_found (i : Approaches.inputs) acc a id hdg kw :
  let m := Approaches.derive_body api datetime_of_index i acc a in
  In (nearest_runway_call id hdg kw) (calls (trace m)) ->
  nearest_runway api id hdg kw = inl NotFoundError ->
  exists lat lon ty,
    m = ([Called (nearest_airport_call lat lon);
          Called (nearest_runway_call id hdg kw); Logged WARNING],
         inr (acc ++
              [{| Approaches.airport := id;
                  Approaches.runway := None;
                  Approaches.type := ty;
                  Approaches.approach_datetime :=
                    datetime_of_index
                      (attr_value (Approaches.start_datetime i))
                      (stop (section_slice a))
                      (frequency (Approaches.approach_and_landing i)) |}])).
Proof.
  cbv zeta. unfold Approaches.derive_body. run_rule.
  all: use_lookup.
  all: eauto.
Qed.

(** The loop after an iteration that returned: the trace of the iteration,
    then the loop on the other approaches. *)
Lemma derive_loop_next (i : Approaches.inputs) acc a rest t acc' :
  Approaches.derive_body api datetime_of_index i acc a = (t, inr acc') ->
  trace (Approaches.derive_loop api datetime_of_index i acc (a :: rest))
  = t ++ trace (Approaches.derive_loop api datetime_of_index i acc' rest)
  /\ outcome (Approaches.derive_loop api datetime_of_index i acc (a :: rest))
     = outcome (Approaches.derive_loop api datetime_of_index i acc' rest).
Proof.
  intros Hbody. cbn [Approaches.derive_loop].
  rewrite trace_bind, outcome_bind, Hbody. split; reflexivity.
Qed.

Lemma approaches_not_found_stays (i : Approaches.inputs) :
  outcome (Approaches.derive api datetime_of_index i) <> inl NotFoundError.
Proof.
  unfold Approaches.derive. rewrite outcome_bind.
  destruct (derive_loop_shape api datetime_of_index i []
              (items (Approaches.approach_and_landing i))) as [_ Hn].
  destruct (outcome _); [intros [= ->]; now apply Hn | discriminate].
Qed.

End NotFound.

(** C7. A lookup of the API handler that raises [NotFoundError] is caught
    where it is made, in every rule that makes one. The rule logs a warning
    and returns; the attribute is left as it was (takeoff airport, takeoff
    and landing runway) or set to [None] (landing airport); in the
    Approaches rule the approach is left out when its airport is not found
    and gets a record without runway when its runway is not found, and the
    loop goes on with the other approaches. No [derive] raises
    [NotFoundError]. *)
Theorem lookup_not_found_is_caught :
  forall api : api_handler,
    (forall doi i acc a rest lat lon,
        In (nearest_airport_call lat lon)
           (calls (trace (Approaches.derive_body api doi i acc a))) ->
        nearest_airport api lat lon = inl NotFoundError ->
        Approaches.derive_body api doi i acc a
        = ([Called (nearest_airport_call lat lon); Logged WARNING], inr acc)
        /\ outcome (Approaches.derive_loop api doi i acc (a :: rest))
           = outcome (Approaches.derive_loop api doi i acc rest))
    /\ (forall doi i acc a rest id hdg kw,
          In (nearest_runway_call id hdg kw)
             (calls (trace (Approaches.derive_body api doi i acc a))) ->
          nearest_runway api id hdg kw = inl NotFoundError ->
          exists lat lon ty,
            let record :=
              {| Approaches.airport := id;
                 Approaches.runway := None;
                 Approaches.type := ty;
                 Approaches.approach_datetime :=
                   doi (attr_value (Approaches.start_datetime i))
                     (stop (section_slice a))
                     (frequency (Approaches.approach_and_landing i)) |} in
            Approaches.derive_body api doi i acc a
            = ([Called (nearest_airport_call lat lon);
                Called (nearest_runway_call id hdg kw); Logged WARNING],
               inr (acc ++ [record]))
            /\ outcome (Approaches.derive_loop api doi i acc (a :: rest))
               = outcome (Approaches.derive_loop api doi i (acc ++ [record])
                            rest))
    /\ (forall doi i,
          outcome (Approaches.derive api doi i) <> inl NotFoundError)
    /\ (forall la_n lo_n lat lon,
          let m := LandingAirport.derive api la_n lo_n in
          outcome m <> inl NotFoundError
          /\ (In (nearest_airport_call lat lon) (calls (trace m)) ->
              nearest_airport api lat lon = inl NotFoundError ->
              m = ([Called (nearest_airport_call lat lon); Logged WARNING;
                    Commit None], inr tt)))
    /\ (forall liftoff latitude longitude lat lon,
          let m := TakeoffAirport.derive api liftoff latitude longitude in
          outcome m <> inl NotFoundError
          /\ (In (nearest_airport_call lat lon) (calls (trace m)) ->
              nearest_airport api lat lon = inl NotFoundError ->
              m = ([Called (nearest_airport_call lat lon); Logged WARNING],
                   inr tt)))
    /\ (forall i id hdg kw,
          let m := LandingRunway.derive api i in
          outcome m <> inl NotFoundError
          /\ (In (nearest_runway_call id hdg kw) (calls (trace m)) ->
              nearest_runway api id hdg kw = inl NotFoundError ->
              m = ([Called (nearest_runway_call id hdg kw); Logged WARNING],
                   inr tt)))
    /\ (forall i id hdg kw,
          let m := TakeoffRunway.derive api i in
          outcome m <> inl NotFoundError
          /\ (In (nearest_runway_call id hdg kw) (calls (trace m)) ->
              nearest_runway api id hdg kw = inl NotFoundError ->
              m = ([Called (nearest_runway_call id hdg kw); Logged WARNING],
                   inr tt))).
Proof.
  intros api. repeat match goal with |- _ /\ _ => split end.
  - intros doi i acc a rest lat lon Hin Hnf.
    pose proof (approach_airport_not_found api doi i acc a lat lon Hin Hnf)
      as Hbody.
    split; [exact Hbody |].
    apply (derive_loop_next api doi i acc a rest _ _ Hbody).
  - intros doi i acc a rest id hdg kw Hin Hnf.
    destruct (approach_runway_not_found api doi i acc a id hdg kw Hin Hnf)
      as (lat & lon & ty & Hbody).
    exists lat, lon, ty. cbv zeta. split; [exact Hbody |].
    apply (derive_loop_next api doi i acc a rest _ _ Hbody).
  - intros. apply approaches_not_found_stays.
  - intros. apply landing_airport_not_found.
  - intros. apply takeoff_airport_not_found.
  - intros. apply landing_runway_not_found.
  - intros. apply takeoff_runway_not_found.
Qed.

Lemma lookup_not_found_is_caught_witness :
  Approaches.derive_body Example.api_nothing Example.doi
    (Example.landing_at 51 7 270) [] Example.approach0
  = ([Called (nearest_airport_call 51 7); Logged WARNING], inr [])
  /\ LandingAirport.derive Example.api_nothing
       ExampleLookup.latitude_at_landing ExampleLookup.longitude_at_landing
     = ([Called (nearest_airport_call 51 7); Logged WARNING; Commit None],
        inr tt)
  /\ TakeoffAirport.derive Example.api_nothing ExampleLookup.liftoff
       ExampleLookup.latitude ExampleLookup.longitude
     = ([Called (nearest_airport_call 51 7); Logged WARNING], inr tt)
  /\ LandingRunway.derive Example.api_no_runway ExampleLookup.landing_runway
     = ([Called (nearest_runway_call 2383 270 []); Logged WARNING], inr tt)
  /\ TakeoffRunway.derive Example.api_no_runway ExampleLookup.takeoff_runway
     = ([Called (nearest_runway_call 2383 90 []); Logged WARNING], inr tt).
Proof.
  repeat match goal with |- _ /\ _ => split end.
  - destruct (lookup_not_found_is_caught Example.api_nothing) as (H & _).
    apply (H Example.doi (Example.landing_at 51 7 270) [] Example.approach0
             [] 51 7); [vm_compute; auto | reflexivity].
  - destruct (lookup_not_found_is_caught Example.api_nothing)
      as (_ & _ & _ & H & _).
    apply (H ExampleLookup.latitude_at_landing
             ExampleLookup.longitude_at_landing 51 7);
      [vm_compute; auto | reflexivity].
  - destruct (lookup_not_found_is_caught Example.api_nothing)
      as (_ & _ & _ & _ & H & _).
    apply (H ExampleLookup.liftoff ExampleLookup.latitude
             ExampleLookup.longitude 51 7);
      [vm_compute; auto | reflexivity].
  - destruct (lookup_not_found_is_caught Example.api_no_runway)
      as (_ & _ & _ & _ & _ & H & _).
    apply (H ExampleLookup.landing_runway 2383 270 []);
      [vm_compute; auto | reflexivity].
  - destruct (lookup_not_found_is_caught Example.api_no_runway)
      as (_ & _ & _ & _ & _ & _ & H).
    apply (H ExampleLookup.takeoff_runway 2383 90 []);
      [vm_compute; auto | reflexivity].
Defined.

(** * Further properties of the rules *)

(** ** The heading of an approach *)

Section Heading.
Import Approaches.

Lemma hdg_block (n : option (node KeyPointValue)) s (orelse : option Z) :
  if_dep n
    (fun n' =>
       let hdg_kpvs := get n' (Some s) None in
       if len hdg_kpvs =? 1 then
         match hdg_kpvs with
         | hdg0 :: _ => Some (kpv_value hdg0)
         | [] => orelse
         end
       else orelse)
    orelse =
  match matches n s with
  | [k] => Some (kpv_value k)
  | _ => orelse
  end.
Proof.
  unfold if_dep, matches. destruct n as [n |]; [| reflexivity].
  destruct (truth n) eqn:Hn; [| now rewrite (get_of_false n _ _ Hn)].
  cbv zeta. destruct (get n (Some s) None) as [| k [| k' l]];
    try reflexivity.
  unfold len. cbn [List.length].
  destruct (Z.eqb_spec (Z.of_nat (S (S (List.length l)))) 1); [lia |].
  reflexivity.
Qed.

Lemma get_hdg_by_priority s landing_hdg approach_hdg :
  _get_hdg s landing_hdg approach_hdg
  = hdg_by_priority s landing_hdg approach_hdg.
Proof.
  unfold hdg_by_priority.
  rewrite <- (hdg_block approach_hdg s None).
  exact (hdg_block landing_hdg s _).
Qed.

End Heading.

(** X1. The heading of an approach is the value of the landing heading when
    exactly one landing heading lies within the approach interval, whatever
    the approach heading is; else the value of the approach heading when
    exactly one lies within the interval; else [None]. A single landing
    heading of 0 is returned as it is, so that the approach gets no runway
    even when an approach heading other than 0 is there. *)
Theorem heading_prefers_landing :
  forall (s : slice) (landing_hdg approach_hdg : option (node KeyPointValue)),
    Approaches._get_hdg s landing_hdg approach_hdg
    = hdg_by_priority s landing_hdg approach_hdg
    /\ (forall k,
          matches landing_hdg s = [k] ->
          Approaches._get_hdg s landing_hdg approach_hdg
          = Some (kpv_value k))
    /\ (forall api doi (i : Approaches.inputs) (a : SectionItem) k acc acc',
          landing_hdg = Approaches.landing_hdg_kpvs i ->
          approach_hdg = Approaches.approach_hdg_kpvs i ->
          s = section_slice a ->
          matches landing_hdg s = [k] -> kpv_value k = 0 ->
          outcome (Approaches.derive_body api doi i acc a) = inr acc' ->
          acc' = acc
          \/ exists r, acc' = acc ++ [r] /\ Approaches.runway r = None).
Proof.
  intros s landing_hdg approach_hdg.
  split; [apply get_hdg_by_priority |]. split.
  - intros k Hk. rewrite get_hdg_by_priority. unfold hdg_by_priority.
    now rewrite Hk.
  - intros api doi i a k acc acc' -> -> -> Hk Hz.
    apply (derive_body_heading_false api doi i acc a).
    rewrite get_hdg_by_priority. unfold hdg_by_priority. rewrite Hk, Hz.
    reflexivity.
Qed.

Lemma heading_prefers_landing_witness :
  Approaches._get_hdg (section_slice Example.approach0)
    (Some (Example.node_of "Heading At Landing" [Example.kpv 50 0]))
    (Some (Example.node_of "Heading At Low Point On Approach"
             [Example.kpv 40 93]))
  = Some 0.
Proof.
  apply (proj1 (proj2 (heading_prefers_landing
                         (section_slice Example.approach0)
                         (Some (Example.node_of "Heading At Landing"
                                  [Example.kpv 50 0]))
                         (Some (Example.node_of
                                  "Heading At Low Point On Approach"
                                  [Example.kpv 40 93]))))
           (Example.kpv 50 0)).
  reflexivity.
Defined.

(** ** The availability tests *)

Section Gates.
Import CanOperate.

Lemma has_incl available available' n :
  incl available available' ->
  has available n = true -> has available' n = true.
Proof.
  unfold has. intros Hincl Hn. apply existsb_exists in Hn.
  destruct Hn as (x & Hx & Hnx). apply existsb_exists. exists x.
  split; [now apply Hincl | exact Hnx].
Qed.

Lemma all_in_incl available available' names :
  incl available available' ->
  all_in available names = true -> all_in available' names = true.
Proof.
  unfold all_in. intros Hincl Hall. apply forallb_forall.
  intros n Hn. apply has_incl with (1 := Hincl).
  now apply (proj1 (forallb_forall _ _) Hall).
Qed.

Lemma andb_monotone (a b a' b' : bool) :
  (a = true -> a' = true) -> (b = true -> b' = true) ->
  a && b = true -> a' && b' = true.
Proof. destruct a, b; simpl; intros Ha Hb H; try discriminate;
  now rewrite Ha, Hb. Qed.

Lemma orb_monotone (a b a' b' : bool) :
  (a = true -> a' = true) -> (b = true -> b' = true) ->
  a || b = true -> a' || b' = true.
Proof.
  destruct a, b; simpl; intros Ha Hb H; try discriminate;
    rewrite ?Ha, ?Hb by reflexivity; rewrite ?orb_true_r; reflexivity.
Qed.

(** A condition built from [&&], [||], [has] and [all_in] is monotone. *)
Ltac monotone Hincl :=
  lazymatch goal with
  | |- _ && _ = true -> _ && _ = true =>
      apply andb_monotone; monotone Hincl
  | |- _ || _ = true -> _ || _ = true =>
      apply orb_monotone; monotone Hincl
  | |- has _ _ = true -> has _ _ = true => apply has_incl, Hincl
  | |- all_in _ _ = true -> all_in _ _ = true => apply all_in_incl, Hincl
  end.

Lemma gates_monotone available available' nm gate :
  In (nm, gate) gates -> incl available available' ->
  gate available = true -> gate available' = true.
Proof.
  intros Hin Hincl. cbn [gates In] in Hin.
  repeat match goal with
    | H : _ \/ _ |- _ => destruct H
    | H : False |- _ => destruct H
    | H : (_, _) = (_, _) |- _ => injection H as <- <-
    end;
    unfold Approaches, LandingRunway, TakeoffFuel, TakeoffPilot,
      TakeoffRunway, FlightType, LandingFuel, LandingPilot; cbv zeta;
    monotone Hincl.
Qed.

End Gates.

(** X2. Every availability test that a class defines is monotone: a rule
    that can operate on a set of available inputs can operate on every
    larger set. With the two autopilot KPVs alone the test of the takeoff
    pilot passes, without any control parameter or section. *)
Theorem can_operate_monotone :
  (forall available available' nm gate,
      In (nm, gate) CanOperate.gates ->
      incl available available' ->
      gate available = true -> gate available' = true)
  /\ (forall available,
        CanOperate.has available "Autopilot Engaged 1 At Liftoff" = true ->
        CanOperate.has available "Autopilot Engaged 2 At Liftoff" = true ->
        CanOperate.TakeoffPilot available = true).
Proof.
  split; [exact gates_monotone |].
  intros available H1 H2. unfold CanOperate.TakeoffPilot. cbv zeta.
  now rewrite H1, H2.
Qed.

Lemma can_operate_monotone_witness :
  CanOperate.FlightType ["Groundspeed"; "Fast"; "Liftoff"; "Touchdown"]
  = true.
Proof.
  apply (proj1 can_operate_monotone ["Fast"; "Liftoff"; "Touchdown"]
           ["Groundspeed"; "Fast"; "Liftoff"; "Touchdown"]
           "FDR Flight Type" CanOperate.FlightType).
  - cbn [CanOperate.gates In]. tauto.
  - intros x Hx. now right.
  - reflexivity.
Defined.

(** ** The list of approaches *)

Section ApproachList.
Import Approaches.
Variable api : api_handler.
Variable datetime_of_index : datetime_of_index_t.
Variable i : inputs.

(** An iteration does not read the list: it runs as from the empty list and
    appends what that run returns. *)
Lemma derive_body_from_nil acc a :
  derive_body api datetime_of_index i acc a =
  let (t, r) := derive_body api datetime_of_index i [] a in
  (t, match r with
      | inr records => inr (acc ++ records)
      | inl e => inl e
      end).
Proof.
  unfold derive_body.
  unfold get_nearest_airport, get_nearest_runway, try_except,
    try_except_else, logging_warning, logging_info, bind, ret.
  repeat first
    [ progress cbn [trace outcome fst snd app]
    | progress cbv beta iota zeta
    | break_match ];
    read_results; cbn [app]; rewrite ?app_nil_r; reflexivity.
Qed.

Lemma derive_body_from acc a :
  derive_body api datetime_of_index i acc a =
  (trace (derive_body api datetime_of_index i [] a),
   match outcome (derive_body api datetime_of_index i [] a) with
   | inr records => inr (acc ++ records)
   | inl e => inl e
   end).
Proof.
  rewrite derive_body_from_nil.
  now destruct (derive_body api datetime_of_index i [] a).
Qed.

Lemma records_of_length a :
  (List.length (records_of api datetime_of_index i a) <= 1)%nat.
Proof.
  unfold records_of.
  destruct (derive_body_shape api datetime_of_index i [] a) as (_ & _ & H).
  destruct (outcome _) as [e | r]; [simpl; lia |].
  destruct (H r eq_refl) as [-> | [x ->]]; simpl; lia.
Qed.

Lemma derive_loop_records acc l out :
  outcome (derive_loop api datetime_of_index i acc l) = inr out ->
  out = acc ++ flat_map (records_of api datetime_of_index i) l.
Proof.
  revert acc. induction l as [| a l IH]; intros acc.
  - simpl. intros [= <-]. now rewrite app_nil_r.
  - cbn [derive_loop flat_map]. rewrite outcome_bind.
    rewrite derive_body_from. cbn [outcome snd]. unfold records_of.
    destruct (outcome (derive_body api datetime_of_index i [] a))
      as [e | r]; [discriminate |].
    intros Hout. rewrite (IH _ Hout). now rewrite app_assoc.
Qed.

Lemma flat_map_records_length l :
  (List.length (flat_map (records_of api datetime_of_index i) l)
   <= List.length l)%nat.
Proof.
  induction l as [| a l IH]; simpl; [lia |].
  rewrite length_app. pose proof (records_of_length a). lia.
Qed.

End ApproachList.

(** X3. The list that the Approaches rule commits holds the records of the
    approaches in the order of the approach sections: it is the
    concatenation, in that order, of what the loop appends for each
    section, at most one record for a section, so that it is never longer
    than the node of sections; and the rule commits nothing else. *)
Theorem approaches_in_order_of_sections :
  forall api doi (i : Approaches.inputs) approaches,
    In approaches (commits (trace (Approaches.derive api doi i))) ->
    commits (trace (Approaches.derive api doi i)) = [approaches]
    /\ approaches
       = flat_map (records_of api doi i)
           (items (Approaches.approach_and_landing i))
    /\ (forall a, (List.length (records_of api doi i a) <= 1)%nat)
    /\ (List.length approaches
        <= List.length (items (Approaches.approach_and_landing i)))%nat.
Proof.
  intros api doi i approaches. rewrite approaches_commit.
  destruct (outcome (Approaches.derive_loop api doi i []
                       (items (Approaches.approach_and_landing i))))
    as [e | out] eqn:Hout; [intros [] |].
  intros [<- | []].
  pose proof (derive_loop_records api doi i [] _ _ Hout) as Heq.
  cbn [app] in Heq. subst out.
  repeat split.
  - intros a. apply records_of_length.
  - apply flat_map_records_length.
Qed.

Lemma approaches_in_order_of_sections_witness :
  commits (trace (Approaches.derive Example.api_heathrow Example.doi
                    (Example.landing_at 51 7 270)))
  = [[{| Approaches.airport := 2383;
         Approaches.runway := Some "27L";
         Approaches.type := "LANDING";
         Approaches.approach_datetime := {| timestamp := 100000000 |} |}]].
Proof.
  refine (proj1 (approaches_in_order_of_sections Example.api_heathrow
                   Example.doi (Example.landing_at 51 7 270)
                   [{| Approaches.airport := 2383;
                       Approaches.runway := Some "27L";
                       Approaches.type := "LANDING";
                       Approaches.approach_datetime :=
                         {| timestamp := 100000000 |} |}] _)).
  vm_compute. left. reflexivity.
Defined.

(** ** The flight type of an incomplete flight and of a ground run *)

Section FlightTypeMore.
Import FlightType.

Lemma derive_liftoff_only (i : inputs) :
  truth (liftoffs i) = true -> truth (touchdowns i) = false ->
  derive i = ([Logged WARNING; Commit "LIFTOFF_ONLY"], inr tt).
Proof. intros Hl Ht. unfold derive. rewrite Hl, Ht. reflexivity. Qed.

Lemma derive_touchdown_only (i : inputs) :
  truth (liftoffs i) = false -> truth (touchdowns i) = true ->
  derive i = ([Logged WARNING; Commit "TOUCHDOWN_ONLY"], inr tt).
Proof. intros Hl Ht. unfold derive. rewrite Hl, Ht. reflexivity. Qed.

Lemma derive_touchdown_before_liftoff (i : inputs) los tds fl ft :
  liftoffs i = Some los -> touchdowns i = Some tds ->
  get_first los None None = Some fl -> get_first tds None None = Some ft ->
  index ft < index fl ->
  derive i = ([Logged WARNING; Commit "TOUCHDOWN_BEFORE_LIFTOFF"], inr tt).
Proof.
  intros Hlo Htd Hfl Hft Hord. unfold derive.
  rewrite Hlo, Htd. cbn [truth truth_option].
  rewrite (get_first_truth _ _ Hfl), (get_first_truth _ _ Hft).
  cbn [negb andb deref]. rewrite !bind_ret_l, Hft, Hfl.
  cbn [deref]. rewrite !bind_ret_l.
  destruct (Z.ltb_spec (index ft) (index fl)); [reflexivity | lia].
Qed.

Lemma derive_on_the_ground (i : inputs) :
  truth (liftoffs i) = false -> truth (touchdowns i) = false ->
  derive i =
  if truth (fast i) then set_flight_attr "REJECTED_TAKEOFF"
  else
    if_dep (groundspeed i)
      (fun gs =>
         range <- lift (ptp (array gs)) ;;
         if range >? 10 then set_flight_attr "GROUND_RUN"
         else set_flight_attr "ENGINE_RUN_UP")
      (set_flight_attr "ENGINE_RUN_UP").
Proof. intros Hl Ht. unfold derive. rewrite Hl, Ht. reflexivity. Qed.

End FlightTypeMore.

(** X4. A recording with liftoffs and no touchdown has the flight type
    LIFTOFF_ONLY, one with touchdowns and no liftoff has TOUCHDOWN_ONLY, and
    one whose first touchdown is before its first liftoff has
    TOUCHDOWN_BEFORE_LIFTOFF, each with a warning and whatever the record
    type, the touch and gos, the fast sections and the ground speed are. *)
Theorem incomplete_flights_are_classified_first :
  forall i : FlightType.inputs,
    (truth (FlightType.liftoffs i) = true ->
     truth (FlightType.touchdowns i) = false ->
     FlightType.derive i = ([Logged WARNING; Commit "LIFTOFF_ONLY"], inr tt))
    /\ (truth (FlightType.liftoffs i) = false ->
        truth (FlightType.touchdowns i) = true ->
        FlightType.derive i
        = ([Logged WARNING; Commit "TOUCHDOWN_ONLY"], inr tt))
    /\ (forall los tds fl ft,
          FlightType.liftoffs i = Some los ->
          FlightType.touchdowns i = Some tds ->
          get_first los None None = Some fl ->
          get_first tds None None = Some ft ->
          index ft < index fl ->
          FlightType.derive i
          = ([Logged WARNING; Commit "TOUCHDOWN_BEFORE_LIFTOFF"], inr tt)).
Proof.
  intros i. split; [apply derive_liftoff_only |].
  split; [apply derive_touchdown_only |].
  apply derive_touchdown_before_liftoff.
Qed.

Lemma incomplete_flights_are_classified_first_witness :
  FlightType.derive (ExampleGround.recorded [100] [50])
  = ([Logged WARNING; Commit "TOUCHDOWN_BEFORE_LIFTOFF"], inr tt)
  /\ FlightType.derive (ExampleGround.recorded [100] [])
     = ([Logged WARNING; Commit "LIFTOFF_ONLY"], inr tt)
  /\ FlightType.derive (ExampleGround.recorded [] [50])
     = ([Logged WARNING; Commit "TOUCHDOWN_ONLY"], inr tt).
Proof.
  split; [| split].
  - apply (proj2 (proj2 (incomplete_flights_are_classified_first
                           (ExampleGround.recorded [100] [50])))
             (Example.node_of "Liftoff" [Example.kti 100])
             (Example.node_of "Touchdown" [Example.kti 50])
             (Example.kti 100) (Example.kti 50));
      try reflexivity.
  - apply (proj1 (incomplete_flights_are_classified_first
                    (ExampleGround.recorded [100] []))); reflexivity.
  - apply (proj1 (proj2 (incomplete_flights_are_classified_first
                           (ExampleGround.recorded [] [50]))));
      reflexivity.
Defined.



(** ** The values of the flight type *)

Section FlightTypeRange.
Import FlightType.

Lemma complete_or_override_in (i : inputs) :
  In (complete_or_override i)
     ["COMPLETE"; "FERRY"; "LINE_TRAINING"; "POSITIONINGTEST"; "TRAINING"].
Proof.
  unfold complete_or_override, py_in, afr_types.
  destruct (afr_type_value i) as [s |]; [| simpl; tauto].
  cbn [existsb].
  destruct (String.eqb_spec s "FERRY"); [subst; simpl; tauto |].
  destruct (String.eqb_spec s "LINE_TRAINING"); [subst; simpl; tauto |].
  destruct (String.eqb_spec s ("POSITIONING" ++ "TEST"));
    [subst; simpl; tauto |].
  destruct (String.eqb_spec s "TRAINING"); [subst; simpl; tauto |].
  simpl; tauto.
Qed.

Lemma complete_or_override_type (i : inputs) :
  In (complete_or_override i) flight_types.
Proof.
  pose proof (complete_or_override_in i) as H. unfold flight_types.
  cbn [In] in *. intuition.
Qed.

Lemma truth_some {A} `{Truth A} (o : option A) :
  truth o = true -> exists a, o = Some a /\ truth a = true.
Proof. destruct o as [a |]; [eauto | discriminate]. Qed.

End FlightTypeRange.

(** X6. [FlightType.derive] commits exactly one flight type and returns,
    with or without a warning, and the type is one of LIFTOFF_ONLY,
    TOUCHDOWN_ONLY, TOUCHDOWN_BEFORE_LIFTOFF, COMPLETE, REJECTED_TAKEOFF,
    GROUND_RUN, ENGINE_RUN_UP, FERRY, LINE_TRAINING, POSITIONINGTEST and
    TRAINING; the one exception is a recording without liftoff, touchdown
    and fast section whose ground speed has no sample, on which the range
    of the ground speed raises [ValueError] and nothing is committed. *)
Theorem flight_type_is_one_of_eleven :
  forall i : FlightType.inputs,
    (exists v,
        In v flight_types
        /\ (FlightType.derive i = ([Commit v], inr tt)
            \/ FlightType.derive i = ([Logged WARNING; Commit v], inr tt)))
    \/ (FlightType.derive i = ([], inl ValueError)
        /\ truth (FlightType.liftoffs i) = false
        /\ truth (FlightType.touchdowns i) = false
        /\ truth (FlightType.fast i) = false
        /\ exists gs, FlightType.groundspeed i = Some gs /\ array gs = []).
Proof.
  intros i. unfold flight_types.
  destruct (truth (FlightType.liftoffs i)) eqn:Hl,
           (truth (FlightType.touchdowns i)) eqn:Ht.
  - (* liftoffs and touchdowns *)
    left.
    destruct (truth_some _ Hl) as (los & Hlos & Hlt).
    destruct (truth_some _ Ht) as (tds & Htds & Htt).
    destruct (get_first_some los Hlt) as [fl Hfl].
    destruct (get_first_some tds Htt) as [ft Hft].
    destruct (Z.lt_ge_cases (index ft) (index fl)) as [Hord | Hord].
    + exists "TOUCHDOWN_BEFORE_LIFTOFF". split; [simpl; tauto |]. right.
      now apply derive_touchdown_before_liftoff
        with (los := los) (tds := tds) (fl := fl) (ft := ft).
    + rewrite (derive_both i los tds fl ft) by (assumption || lia).
      pose proof (complete_or_override_type i) as Hc.
      unfold if_dep.
      destruct (FlightType.touch_and_gos i) as [tgs |];
        [| exists (complete_or_override i); split; [exact Hc | now left]].
      destruct (truth tgs) eqn:Htg;
        [| exists (complete_or_override i); split; [exact Hc | now left]].
      destruct (get_last_some tds Htt) as [ltd ->].
      destruct (get_last_some tgs Htg) as [ltg ->].
      cbn [deref]. rewrite !bind_ret_l.
      destruct (index ltd <=? index ltg).
      * exists "LIFTOFF_ONLY". split; [simpl; tauto | now right].
      * exists (complete_or_override i). split; [exact Hc | now left].
  - left. exists "LIFTOFF_ONLY". split; [simpl; tauto |]. right.
    now apply derive_liftoff_only.
  - left. exists "TOUCHDOWN_ONLY". split; [simpl; tauto |]. right.
    now apply derive_touchdown_only.
  - rewrite (derive_on_the_ground i Hl Ht).
    destruct (truth (FlightType.fast i)) eqn:Hf.
    + left. exists "REJECTED_TAKEOFF". split; [simpl; tauto | now left].
    + unfold if_dep. destruct (FlightType.groundspeed i) as [gs |].
      * cbn [truth truth_parameter]. unfold lift.
        destruct (array gs) as [| x r] eqn:Hgs.
        -- right. cbn [ptp bind]. repeat split; eauto.
        -- left. cbn [ptp bind].
           destruct (_ >? 10).
           ++ exists "GROUND_RUN". split; [simpl; tauto | now left].
           ++ exists "ENGINE_RUN_UP". split; [simpl; tauto | now left].
      * left. exists "ENGINE_RUN_UP". split; [simpl; tauto | now left].
Qed.

(** ** The pilot rules as the classes call [_controls_in_use] *)

(** X7. As the classes call [_controls_in_use], the pilot rules never
    commit anything: [TakeoffPilot.derive] and [LandingPilot.derive] raise
    [TypeError] with an empty trace when the four control parameters are
    available and the node of sections has a section, and return with an
    empty trace on every other input. *)
Theorem pilot_rules_commit_nothing :
  forall i : Pilot.inputs,
    TakeoffPilot.derive i
    = ([], if controls_available i then inl TypeError else inr tt)
    /\ LandingPilot.derive i
       = ([], if controls_available i then inl TypeError else inr tt).
Proof.
  intros i.
  assert (General : forall pick,
             Pilot.autopilot_block pick i = ([], inr tt) ->
             (forall n, truth n = true -> exists k, pick n = Some k) ->
             Pilot.derive_with Pilot.self_controls_in_use pick i
             = ([], if controls_available i then inl TypeError
                    else inr tt)).
  { intros pick Ha Hpick. unfold controls_available, Pilot.derive_with.
    rewrite Ha.
    destruct (Pilot.pitch_captain i) as [pc |]; [| reflexivity].
    destruct (Pilot.roll_captain i) as [rc |]; [| reflexivity].
    destruct (Pilot.pitch_fo i) as [pf |]; [| reflexivity].
    destruct (Pilot.roll_fo i) as [rf |]; [| reflexivity].
    destruct (Pilot.sections i) as [tk |]; [| reflexivity].
    cbn [truth truth_option truth_parameter andb].
    destruct (truth tk) eqn:Htk; [| reflexivity].
    destruct (get_first_some tk Htk) as [t ->]. reflexivity. }
  split.
  - apply General; [apply autopilot_first_sets_nothing |].
    intros n. apply get_first_some.
  - apply General; [apply autopilot_last_sets_nothing |].
    intros n. apply get_last_some.
Qed.

(** ** The controls in use *)

Section ControlsInUse.

Lemma maximum_bounds (r : list Z) (x : Z) :
  x <= maximum r x /\ forall y, In y r -> y <= maximum r x.
Proof.
  unfold maximum. induction r as [| a r [IHx IHr]]; simpl.
  - split; [lia | intros y []].
  - split; [lia |]. intros y [<- | Hy]; [lia |].
    specialize (IHr y Hy). lia.
Qed.

Lemma minimum_bounds (r : list Z) (x : Z) :
  minimum r x <= x /\ forall y, In y r -> minimum r x <= y.
Proof.
  unfold minimum. induction r as [| a r [IHx IHr]]; simpl.
  - split; [lia | intros y []].
  - split; [lia |]. intros y [<- | Hy]; [lia |].
    specialize (IHr y Hy). lia.
Qed.

Lemma maximum_constant (r : list Z) (x : Z) :
  (forall y, In y r -> y = x) -> maximum r x = x /\ minimum r x = x.
Proof.
  unfold maximum, minimum. induction r as [| a r IH]; simpl; [auto |].
  intros Hall. destruct IH as [-> ->]; [intros y Hy; apply Hall; now right |].
  rewrite (Hall a) by now left. lia.
Qed.

(** The range of an array is 0 exactly when the array is constant. *)
Lemma ptp_constant (x : Z) (r : list Z) :
  exists range, ptp (x :: r) = inr range
                /\ negb (range =? 0) = negb (constant (x :: r)).
Proof.
  exists (maximum r x - minimum r x). split; [reflexivity |]. f_equal.
  cbn [constant].
  destruct (forallb (Z.eqb x) r) eqn:Hall.
  - assert (Hc : forall y, In y r -> y = x).
    { intros y Hy. rewrite forallb_forall in Hall.
      specialize (Hall y Hy). apply Z.eqb_eq in Hall. congruence. }
    destruct (maximum_constant r x Hc) as [-> ->]. apply Z.eqb_eq. lia.
  - apply Z.eqb_neq. intros Hzero.
    destruct (maximum_bounds r x) as [Hmx Hmr].
    destruct (minimum_bounds r x) as [Hnx Hnr].
    assert (Hall' : forallb (Z.eqb x) r = true); [| congruence].
    apply forallb_forall. intros y Hy. apply Z.eqb_eq.
    specialize (Hmr y Hy). specialize (Hnr y Hy). lia.
Qed.

End ControlsInUse.

(** X8. On a slice in which the arrays of pitch and roll have samples,
    [_controls_in_use] returns [False] exactly when both the pitch and the
    roll are constant over the slice: any change of either one, however
    small, counts as the controls being in use. It logs and commits
    nothing. *)
Theorem controls_in_use_iff_not_constant :
  forall (s : slice) (pitch roll : Param),
    getslice (array pitch) s <> [] ->
    getslice (array roll) s <> [] ->
    Pilot._controls_in_use s pitch roll
    = ret (negb (constant (getslice (array pitch) s)
                 && constant (getslice (array roll) s))).
Proof.
  intros s pitch roll Hp Hr. unfold Pilot._controls_in_use.
  destruct (getslice (array pitch) s) as [| p ps]; [congruence |].
  destruct (getslice (array roll) s) as [| q qs]; [congruence |].
  destruct (ptp_constant p ps) as (rp & -> & Hrp).
  destruct (ptp_constant q qs) as (rq & -> & Hrq).
  unfold lift. cbn [bind]. rewrite Hrp.
  destruct (constant (p :: ps)); cbn [negb andb].
  - cbn [bind ret app]. rewrite Hrq. reflexivity.
  - reflexivity.
Qed.

Lemma controls_in_use_iff_not_constant_witness :
  Pilot._controls_in_use {| start := 1; stop := 3 |}
    (Example.param "Pitch (Capt)" [9; 4; 4; 7])
    (Example.param "Roll (Capt)" [1; 0; 0; 2])
  = ret false.
Proof.
  apply (controls_in_use_iff_not_constant {| start := 1; stop := 3 |}
           (Example.param "Pitch (Capt)" [9; 4; 4; 7])
           (Example.param "Roll (Capt)" [1; 0; 0; 2]));
    vm_compute; discriminate.
Defined.

(** ** The airport rules *)

Section Airports.
Variable api : api_handler.

Lemma getitem_beyond {A} (l : list A) (i : Z) :
  len l <= i -> getitem l i = inl IndexError.
Proof.
  unfold getitem, len. intros Hi.
  destruct (Z.ltb_spec i 0); [lia |].
  destruct (Z.ltb_spec i (Z.of_nat (List.length l))); [lia |].
  now rewrite andb_false_r.
Qed.

Lemma getitem_first {A} (l : list A) :
  getitem l 0 = match l with
                | a :: _ => inr a
                | [] => inl IndexError
                end.
Proof.
  unfold getitem. destruct l as [| a l]; [reflexivity |].
  cbn [List.length]. change (0 <? 0) with false. cbv beta iota.
  destruct (Z.ltb_spec 0 (Z.of_nat (S (List.length l)))); [| lia].
  reflexivity.
Qed.

Lemma landing_airport_cases la lo :
  let m := LandingAirport.derive api la lo in
  (outcome m = inr tt -> exists v, commits (trace m) = [v])
  /\ (forall ap,
        In (Some ap) (commits (trace m)) ->
        exists a b,
          get_last la None None = Some a
          /\ get_last lo None None = Some b
          /\ nearest_airport api (kpv_value a) (kpv_value b) = inr ap
          /\ m = ([Called (nearest_airport_call (kpv_value a) (kpv_value b));
                   Commit (Some ap)], inr tt))
  /\ (truth la = false \/ truth lo = false ->
      m = ([Logged WARNING; Commit None], inr tt)).
Proof.
  cbv zeta. unfold LandingAirport.derive.
  split; [| split].
  - run_rule. all: intros; eauto; discriminate.
  - intros ap. run_rule.
    all: cbn [In]; intros Hin;
      repeat match goal with
        | H : _ \/ _ |- _ => destruct H
        | H : False |- _ => destruct H
        | H : Some _ = Some _ |- _ => injection H as ->
        | H : None = Some _ |- _ => discriminate H
        end; eauto 6.
  - intros Hf.
    assert (Hnone : get_last la None None = None
                    \/ get_last lo None None = None).
    { rewrite !get_last_all. unfold truth, truth_node, truth, truth_list in Hf.
      destruct Hf as [Hf | Hf]; [left | right];
        destruct (items _); [reflexivity | discriminate
                            | reflexivity | discriminate]. }
    destruct Hnone as [-> | ->]; [reflexivity |].
    now destruct (get_last la None None).
Qed.

Lemma takeoff_airport_cases liftoff latitude longitude :
  let m := TakeoffAirport.derive api liftoff latitude longitude in
  (items liftoff = [] -> m = ([Logged WARNING; Commit None], inr tt))
  /\ (forall k rest,
        items liftoff = k :: rest ->
        len (array latitude) <= index k
        \/ len (array longitude) <= index k ->
        m = ([], inl IndexError))
  /\ (forall ap,
        In (Some ap) (commits (trace m)) ->
        exists k rest lat lon,
          items liftoff = k :: rest
          /\ getitem (array latitude) (index k) = inr lat
          /\ getitem (array longitude) (index k) = inr lon
          /\ nearest_airport api lat lon = inr ap).
Proof.
  cbv zeta. unfold TakeoffAirport.derive.
  unfold truth, truth_node, truth, truth_list. rewrite getitem_first.
  split; [| split].
  - intros ->. reflexivity.
  - intros k rest -> Hout. cbn [negb]. unfold lift. cbn [bind].
    destruct Hout as [Hout | Hout].
    + now rewrite (getitem_beyond _ _ Hout).
    + rewrite (getitem_beyond (array longitude) _ Hout).
      destruct (getitem (array latitude) (index k)) as [e | lat] eqn:E;
        [apply getitem_raises in E; subst |]; reflexivity.
  - intros ap. destruct (items liftoff) as [| k rest];
      [cbn; intuition discriminate |].
    cbn [negb]. run_rule.
    all: cbn [In]; intros Hin;
      repeat match goal with
        | H : _ \/ _ |- _ => destruct H
        | H : False |- _ => destruct H
        | H : Some _ = Some _ |- _ => injection H as ->
        | H : None = Some _ |- _ => discriminate H
        end; eauto 8.
Qed.

End Airports.

(** X9. [LandingAirport.derive] commits exactly one value on every run that
    returns. The value is an airport only when both KPV nodes have an item
    and the lookup at the last latitude and longitude returns that
    airport; when either node is empty no lookup is made and [None] is
    committed with a warning. *)
Theorem landing_airport_is_set_once_from_last_position :
  forall api (la lo : node KeyPointValue),
    let m := LandingAirport.derive api la lo in
    (outcome m = inr tt -> exists v, commits (trace m) = [v])
    /\ (forall ap,
          In (Some ap) (commits (trace m)) ->
          exists a b,
            get_last la None None = Some a
            /\ get_last lo None None = Some b
            /\ nearest_airport api (kpv_value a) (kpv_value b) = inr ap
            /\ m = ([Called (nearest_airport_call (kpv_value a)
                               (kpv_value b));
                     Commit (Some ap)], inr tt))
    /\ (truth la = false \/ truth lo = false ->
        m = ([Logged WARNING; Commit None], inr tt)).
Proof. intros api la lo. apply landing_airport_cases. Qed.

Lemma landing_airport_is_set_once_from_last_position_witness :
  LandingAirport.derive Example.api_heathrow
    (Example.node_of "Latitude At Landing" [])
    ExampleLookup.longitude_at_landing
  = ([Logged WARNING; Commit None], inr tt).
Proof.
  apply (proj2 (proj2 (landing_airport_is_set_once_from_last_position
                         Example.api_heathrow
                         (Example.node_of "Latitude At Landing" [])
                         ExampleLookup.longitude_at_landing))).
  left. reflexivity.
Defined.

(** X10. [TakeoffAirport.derive] commits [None] with a warning when there
    is no liftoff. Otherwise it reads the latitude and the longitude at the
    index of the first liftoff of the node: when that index is beyond the
    end of either array it raises [IndexError] before any lookup and
    commits nothing, and an airport is committed only when the lookup at
    the position read there returns it. *)
Theorem takeoff_airport_reads_position_at_first_liftoff :
  forall api (liftoff : node KeyTimeInstance) (latitude longitude : Param),
    let m := TakeoffAirport.derive api liftoff latitude longitude in
    (items liftoff = [] -> m = ([Logged WARNING; Commit None], inr tt))
    /\ (forall k rest,
          items liftoff = k :: rest ->
          len (array latitude) <= index k
          \/ len (array longitude) <= index k ->
          m = ([], inl IndexError))
    /\ (forall ap,
          In (Some ap) (commits (trace m)) ->
          exists k rest lat lon,
            items liftoff = k :: rest
            /\ getitem (array latitude) (index k) = inr lat
            /\ getitem (array longitude) (index k) = inr lon
            /\ nearest_airport api lat lon = inr ap).
Proof. intros. apply takeoff_airport_cases. Qed.

Lemma takeoff_airport_reads_position_at_first_liftoff_witness :
  TakeoffAirport.derive Example.api_heathrow
    (Example.node_of "Liftoff" [Example.kti 4])
    ExampleLookup.latitude ExampleLookup.longitude
  = ([], inl IndexError).
Proof.
  apply (proj1 (proj2 (takeoff_airport_reads_position_at_first_liftoff
                         Example.api_heathrow
                         (Example.node_of "Liftoff" [Example.kti 4])
                         ExampleLookup.latitude ExampleLookup.longitude))
           (Example.kti 4) []).
  - reflexivity.
  - left. vm_compute. discriminate.
Defined.

(** ** The runway rules *)

Section Runways.
Variable api : api_handler.

Lemma landing_airport_warning la lo :
  In WARNING (logged (trace (LandingAirport.derive api la lo))) ->
  commits (trace (LandingAirport.derive api la lo)) = [None].
Proof.
  unfold LandingAirport.derive. run_rule.
  all: cbn [In]; intros Hin;
    repeat match goal with
      | H : _ \/ _ |- _ => destruct H
      | H : False |- _ => destruct H
      end; reflexivity.
Qed.

Lemma landing_runway_without_airport (i : LandingRunway.inputs) :
  attr_value (LandingRunway.airport i) = None ->
  LandingRunway.derive api i = ([], inl TypeError).
Proof.
  intros Ha. unfold LandingRunway.derive, airport_value_id.
  now rewrite Ha.
Qed.

Lemma takeoff_runway_without_airport (i : TakeoffRunway.inputs) :
  attr_value (TakeoffRunway.airport i) = None ->
  let m := TakeoffRunway.derive api i in
  trace m = []
  /\ (outcome m = inl TypeError \/ outcome m = inl IndexError).
Proof.
  intros Ha. cbv zeta.
  unfold TakeoffRunway.derive, TakeoffRunway.runway_kwargs, airport_value_id.
  rewrite Ha. run_rule.
  all: split; [reflexivity | auto].
Qed.

Lemma landing_runway_without_section (i : LandingRunway.inputs) ap :
  attr_value (LandingRunway.airport i) = Some ap ->
  items (LandingRunway.approach_and_landing i) = [] ->
  LandingRunway.derive api i = ([], inr tt).
Proof.
  intros Ha Hs. unfold LandingRunway.derive, airport_value_id.
  rewrite Ha, bind_ret_l, get_last_all, Hs. reflexivity.
Qed.

Lemma landing_runway_without_heading (i : LandingRunway.inputs) ap landing :
  attr_value (LandingRunway.airport i) = Some ap ->
  get_last (LandingRunway.approach_and_landing i) None None = Some landing ->
  get_last (LandingRunway.landing_hdg i) (Some (section_slice landing)) None
  = None ->
  LandingRunway.derive api i = ([Logged WARNING], inr tt).
Proof.
  intros Ha Hs Hh. unfold LandingRunway.derive, airport_value_id.
  rewrite Ha, bind_ret_l, Hs. cbn [truth truth_section negb].
  now rewrite Hh.
Qed.

Lemma takeoff_runway_without_heading (i : TakeoffRunway.inputs) :
  items (TakeoffRunway.hdg i) = [] ->
  let m := TakeoffRunway.derive api i in
  commits (trace m) = [] /\ calls (trace m) = []
  /\ exists e, outcome m = inl e.
Proof.
  intros Hh. cbv zeta.
  unfold TakeoffRunway.derive, TakeoffRunway.runway_kwargs.
  rewrite Hh. change (getitem (@nil KeyPointValue) 0) with
    (@inl exn KeyPointValue IndexError).
  run_rule.
  all: repeat split; eauto.
Qed.

Lemma landing_runway_commits_a_runway (i : LandingRunway.inputs) rw :
  In rw (commits (trace (LandingRunway.derive api i))) ->
  exists id hdg kw, nearest_runway api id hdg kw = inr rw.
Proof.
  unfold LandingRunway.derive. run_rule.
  all: cbn [In]; intros Hin;
    repeat match goal with
      | H : _ \/ _ |- _ => destruct H
      | H : False |- _ => destruct H
      end; subst; eauto.
Qed.

Lemma takeoff_runway_commits_a_runway (i : TakeoffRunway.inputs) rw :
  In rw (commits (trace (TakeoffRunway.derive api i))) ->
  exists id hdg kw, nearest_runway api id hdg kw = inr rw.
Proof.
  unfold TakeoffRunway.derive, TakeoffRunway.runway_kwargs. run_rule.
  all: cbn [In]; intros Hin;
    repeat match goal with
      | H : _ \/ _ |- _ => destruct H
      | H : False |- _ => destruct H
      end; subst; eauto.
Qed.

End Runways.

(** X11. The runway rules need the airport: whenever [LandingAirport.derive]
    logs a warning the value it commits is [None], and with an airport
    attribute whose value is [None] [LandingRunway.derive] raises
    [TypeError] at once, and [TakeoffRunway.derive] raises [TypeError] or
    [IndexError], neither with any log, lookup or commit. *)
Theorem runway_rules_raise_without_airport :
  forall api : api_handler,
    (forall la lo,
        In WARNING (logged (trace (LandingAirport.derive api la lo))) ->
        commits (trace (LandingAirport.derive api la lo)) = [None])
    /\ (forall i : LandingRunway.inputs,
          attr_value (LandingRunway.airport i) = None ->
          LandingRunway.derive api i = ([], inl TypeError))
    /\ (forall i : TakeoffRunway.inputs,
          attr_value (TakeoffRunway.airport i) = None ->
          trace (TakeoffRunway.derive api i) = []
          /\ (outcome (TakeoffRunway.derive api i) = inl TypeError
              \/ outcome (TakeoffRunway.derive api i) = inl IndexError)).
Proof.
  intros api. split; [apply landing_airport_warning |].
  split; [apply landing_runway_without_airport |].
  intros i Ha. now apply takeoff_runway_without_airport.
Qed.

Lemma runway_rules_raise_without_airport_witness :
  commits (trace (LandingAirport.derive Example.api_nothing
                    ExampleLookup.latitude_at_landing
                    ExampleLookup.longitude_at_landing))
  = [None]
  /\ LandingRunway.derive Example.api_heathrow
       ExampleRunway.landing_without_airport
     = ([], inl TypeError).
Proof.
  split.
  - apply (proj1 (runway_rules_raise_without_airport Example.api_nothing)).
    vm_compute. auto.
  - apply (proj1 (proj2 (runway_rules_raise_without_airport
                           Example.api_heathrow))).
    reflexivity.
Defined.

(** X12. The runway rules never commit [None]: a value they commit is a
    runway that the lookup returned. Without a heading they differ:
    [LandingRunway.derive] returns without a word when there is no approach
    section and with a warning when the last section has no landing
    heading, whereas [TakeoffRunway.derive] reads [hdg[0]] without a test
    and raises on a node without heading, before any lookup. *)
Theorem runway_rules_without_heading :
  forall api : api_handler,
    (forall (i : LandingRunway.inputs) rw,
        In rw (commits (trace (LandingRunway.derive api i))) ->
        exists id hdg kw, nearest_runway api id hdg kw = inr rw)
    /\ (forall (i : TakeoffRunway.inputs) rw,
          In rw (commits (trace (TakeoffRunway.derive api i))) ->
          exists id hdg kw, nearest_runway api id hdg kw = inr rw)
    /\ (forall (i : LandingRunway.inputs) ap,
          attr_value (LandingRunway.airport i) = Some ap ->
          items (LandingRunway.approach_and_landing i) = [] ->
          LandingRunway.derive api i = ([], inr tt))
    /\ (forall (i : LandingRunway.inputs) ap landing,
          attr_value (LandingRunway.airport i) = Some ap ->
          get_last (LandingRunway.approach_and_landing i) None None
          = Some landing ->
          get_last (LandingRunway.landing_hdg i)
            (Some (section_slice landing)) None = None ->
          LandingRunway.derive api i = ([Logged WARNING], inr tt))
    /\ (forall i : TakeoffRunway.inputs,
          items (TakeoffRunway.hdg i) = [] ->
          commits (trace (TakeoffRunway.derive api i)) = []
          /\ calls (trace (TakeoffRunway.derive api i)) = []
          /\ exists e, outcome (TakeoffRunway.derive api i) = inl e).
Proof.
  intros api.
  split; [apply landing_runway_commits_a_runway |].
  split; [apply takeoff_runway_commits_a_runway |].
  split; [apply landing_runway_without_section |].
  split; [apply landing_runway_without_heading |].
  intros i Hh. now apply takeoff_runway_without_heading.
Qed.

Lemma runway_rules_without_heading_witness :
  LandingRunway.derive Example.api_heathrow
    ExampleRunway.landing_without_heading
  = ([Logged WARNING], inr tt)
  /\ calls (trace (TakeoffRunway.derive Example.api_heathrow
                      ExampleRunway.takeoff_without_heading))
     = [].
Proof.
  split.
  - apply (proj1 (proj2 (proj2 (proj2 (runway_rules_without_heading
                                         Example.api_heathrow))))
             ExampleRunway.landing_without_heading Example.heathrow
             Example.approach0); reflexivity.
  - apply (proj2 (proj2 (proj2 (proj2 (runway_rules_without_heading
                                         Example.api_heathrow))))
             ExampleRunway.takeoff_without_heading eq_refl).
Defined.

(** ** Fuel and gross weight *)

Section Selection.

Lemma earliest_latest (n : node KeyPointValue) :
  items n <> [] ->
  exists first last,
    get_first n None None = Some first /\ get_last n None None = Some last
    /\ In first (items n) /\ In last (items n)
    /\ forall k, In k (items n) -> index first <= index k <= index last.
Proof.
  intros Hn. rewrite get_first_all, get_last_all.
  destruct (earliest_some (items n) Hn) as [first Hf].
  destruct (latest_some (items n) Hn) as [last Hl].
  exists first, last. rewrite Hf, Hl.
  destruct (earliest_spec _ _ Hf) as [Hfi Hfm].
  destruct (latest_spec _ _ Hl) as [Hli Hlm].
  repeat split; auto.
Qed.

Lemma pick_nothing (n : node KeyPointValue) :
  items n = [] ->
  get_first n None None = None /\ get_last n None None = None.
Proof. intros Hn. now rewrite get_first_all, get_last_all, Hn. Qed.

End Selection.

(** X13. The fuel rules prefer the AFR attribute: when it is available its
    value is committed, whatever the KPV node is. Without it the takeoff
    fuel is the value of the fuel KPV of least index and the landing fuel
    the value of the one of greatest index; nothing is committed, not even
    [None], when the node is empty; and with neither input the rule raises
    [AttributeError]. The gross weights are chosen the same way from their
    KPV nodes. *)
Theorem fuel_prefers_afr_then_first_or_last_kpv :
  (forall (afr : Attr Z) qty,
      TakeoffFuel.derive (Some afr) qty = ([Commit (attr_value afr)], inr tt)
      /\ LandingFuel.derive (Some afr) qty
         = ([Commit (attr_value afr)], inr tt))
  /\ (forall n : node KeyPointValue,
        items n = [] ->
        TakeoffFuel.derive None (Some n) = ([], inr tt)
        /\ LandingFuel.derive None (Some n) = ([], inr tt)
        /\ TakeoffGrossWeight.derive n = ([], inr tt)
        /\ LandingGrossWeight.derive n = ([], inr tt))
  /\ (forall n : node KeyPointValue,
        items n <> [] ->
        exists first last,
          In first (items n) /\ In last (items n)
          /\ (forall k, In k (items n) ->
                        index first <= index k <= index last)
          /\ TakeoffFuel.derive None (Some n)
             = ([Commit (kpv_value first)], inr tt)
          /\ LandingFuel.derive None (Some n)
             = ([Commit (kpv_value last)], inr tt)
          /\ TakeoffGrossWeight.derive n
             = ([Commit (kpv_value first)], inr tt)
          /\ LandingGrossWeight.derive n
             = ([Commit (kpv_value last)], inr tt))
  /\ TakeoffFuel.derive None None = ([], inl AttributeError)
  /\ LandingFuel.derive None None = ([], inl AttributeError).
Proof.
  split; [| split; [| split]].
  - intros afr qty. split; reflexivity.
  - intros n Hn. destruct (pick_nothing n Hn) as [Hf Hl].
    unfold TakeoffFuel.derive, LandingFuel.derive, Fuel.derive,
      TakeoffGrossWeight.derive, LandingGrossWeight.derive,
      GrossWeight.derive, if_dep.
    cbn [deref]. rewrite !bind_ret_l, Hf, Hl. repeat split.
  - intros n Hn.
    destruct (earliest_latest n Hn) as (first & last & Hf & Hl & H1 & H2 & H3).
    exists first, last.
    unfold TakeoffFuel.derive, LandingFuel.derive, Fuel.derive,
      TakeoffGrossWeight.derive, LandingGrossWeight.derive,
      GrossWeight.derive, if_dep.
    cbn [deref]. rewrite !bind_ret_l, Hf, Hl. repeat split; auto.
    all: apply H3; assumption.
  - split; reflexivity.
Qed.

Lemma fuel_prefers_afr_then_first_or_last_kpv_witness :
  TakeoffFuel.derive None
    (Some (Example.node_of "Fuel Qty At Liftoff" []))
  = ([], inr tt).
Proof.
  apply (proj1 (proj2 fuel_prefers_afr_then_first_or_last_kpv)
           (Example.node_of "Fuel Qty At Liftoff" [])).
  reflexivity.
Defined.

(** ** Takeoff and landing datetimes, and the duration they give *)

(** X14. [TakeoffDatetime.derive] and [LandingDatetime.derive] each commit
    exactly one value: [None] when there is no liftoff (no touchdown), else
    the datetime of the liftoff of least index (of the touchdown of
    greatest index). The duration derived from the two values is [None]
    exactly when there is no liftoff or no touchdown, and otherwise the
    difference of the two datetimes in seconds. *)
Theorem duration_of_derived_datetimes :
  forall doi (liftoff touchdown : node KeyTimeInstance)
         (start : Attr datetime) nm1 nm2,
  exists takeoff landing,
    TakeoffDatetime.derive doi liftoff start = ([Commit takeoff], inr tt)
    /\ LandingDatetime.derive doi start touchdown
       = ([Commit landing], inr tt)
    /\ takeoff
       = option_map
           (fun k => doi (attr_value start) (index k) (frequency liftoff))
           (get_first liftoff None None)
    /\ landing
       = option_map
           (fun k => doi (attr_value start) (index k) (frequency touchdown))
           (get_last touchdown None None)
    /\ (takeoff = None <-> items liftoff = [])
    /\ (landing = None <-> items touchdown = [])
    /\ exists duration,
         Duration.derive {| attr_name := nm1; attr_value := takeoff |}
           {| attr_name := nm2; attr_value := landing |}
         = ([Commit duration], inr tt)
         /\ (duration = None <-> items liftoff = [] \/ items touchdown = [])
         /\ (forall t l, takeoff = Some t -> landing = Some l ->
               duration = Some (Qmake (timestamp l - timestamp t) 1000000)).
Proof.
  intros doi liftoff touchdown start nm1 nm2.
  unfold TakeoffDatetime.derive, LandingDatetime.derive.
  rewrite get_first_all, get_last_all.
  assert (He : forall l : list KeyTimeInstance,
             earliest l = None <-> l = []).
  { intros l. split; [| now intros ->].
    destruct l as [| a l]; [reflexivity |]. intros Hn.
    destruct (earliest_some (a :: l)) as [b Hb]; congruence. }
  assert (Hl : forall l : list KeyTimeInstance,
             latest l = None <-> l = []).
  { intros l. split; [| now intros ->].
    destruct l as [| a l]; [reflexivity |]. intros Hn.
    destruct (latest_some (a :: l)) as [b Hb]; congruence. }
  specialize (He (items liftoff)). specialize (Hl (items touchdown)).
  destruct (earliest (items liftoff)) as [fl |],
           (latest (items touchdown)) as [lt |];
    cbn [truth truth_kti negb option_map];
    do 2 eexists; (split; [reflexivity |]); (split; [reflexivity |]);
    (split; [reflexivity |]); (split; [reflexivity |]);
    (split; [split; [intros H; try discriminate H; now apply He
                    | intros H; apply He in H; try discriminate H;
                      reflexivity] |]);
    (split; [split; [intros H; try discriminate H; now apply Hl
                    | intros H; apply Hl in H; try discriminate H;
                      reflexivity] |]);
    unfold Duration.derive; cbn [attr_value truth truth_datetime andb];
    eexists; (split; [reflexivity |]); split;
    try (split; [intros H; try discriminate H; intuition
                | intros [H | H]; [apply He in H | apply Hl in H];
                  try discriminate H; reflexivity]);
    try (intros t l [= <-] [= <-]; reflexivity);
    try (intros t l H1 H2; discriminate).
Qed.

(** ** The flight number *)

(** X15. [FlightNumber.derive] commits the sample in the middle of the
    array of the flight number, at the index of half its length rounded
    down, and never fails on an array with a sample; on an empty array it
    raises [IndexError] and commits nothing. *)
Theorem flight_number_is_the_middle_sample :
  forall num : Param,
    (array num = [] -> FlightNumber.derive num = ([], inl IndexError))
    /\ (array num <> [] ->
        exists v,
          nth_error (array num) (List.length (array num) / 2) = Some v
          /\ FlightNumber.derive num = ([Commit v], inr tt)).
Proof.
  intros num. unfold FlightNumber.derive. split.
  - intros ->. reflexivity.
  - intros Hn. unfold getitem, len.
    set (n := List.length (array num)).
    assert (Hpos : (0 < n)%nat).
    { subst n. destruct (array num); [congruence | simpl; lia]. }
    assert (Hhalf : Z.of_nat n / 2 = Z.of_nat (n / 2)).
    { now rewrite Nat2Z.inj_div. }
    assert (Hlt : (n / 2 < n)%nat) by (apply Nat.div_lt; lia).
    rewrite Hhalf.
    destruct (Z.ltb_spec (Z.of_nat (n / 2)) 0); [lia |].
    destruct (Z.leb_spec 0 (Z.of_nat (n / 2))); [| lia].
    destruct (Z.ltb_spec (Z.of_nat (n / 2)) (Z.of_nat n)); [| lia].
    cbn [andb]. rewrite Nat2Z.id.
    destruct (nth_error (array num) (n / 2)) as [v |] eqn:Hv.
    + exists v. split; reflexivity.
    + apply nth_error_None in Hv. subst n. lia.
Qed.

Lemma flight_number_is_the_middle_sample_witness :
  FlightNumber.derive (Example.param "Flight Number" [])
  = ([], inl IndexError).
Proof.
  apply (proj1 (flight_number_is_the_middle_sample
                  (Example.param "Flight Number" []))).
  reflexivity.
Defined.

(** ** Off blocks and on blocks *)

(** X16. The off blocks and on blocks datetimes look only at the sections
    named 'Turning On Ground'. Without one both are [None]. Otherwise the
    off blocks datetime is taken at the start of the one that starts first
    and the on blocks datetime at the start, not the stop, of the one that
    starts last, so that the index of off blocks is never after the index
    of on blocks. *)
Theorem blocks_at_first_and_last_turning_on_ground :
  forall doi (turning : node SectionItem) (start_datetime : Attr datetime),
    let named := get turning None (Some "Turning On Ground") in
    (forall s, In s named <->
               In s (items turning)
               /\ section_name s = "Turning On Ground")
    /\ (named = [] ->
        OffBlocksDatetime.derive doi turning start_datetime
        = ([Commit None], inr tt)
        /\ OnBlocksDatetime.derive doi turning start_datetime
           = ([Commit None], inr tt))
    /\ (named <> [] ->
        exists first last,
          In first named /\ In last named
          /\ (forall s, In s named ->
                start (section_slice first) <= start (section_slice s)
                /\ start (section_slice s) <= start (section_slice last))
          /\ OffBlocksDatetime.derive doi turning start_datetime
             = ([Commit (Some (doi (attr_value start_datetime)
                                 (start (section_slice first))
                                 (frequency turning)))], inr tt)
          /\ OnBlocksDatetime.derive doi turning start_datetime
             = ([Commit (Some (doi (attr_value start_datetime)
                                 (start (section_slice last))
                                 (frequency turning)))], inr tt)).
Proof.
  intros doi turning start_datetime named.
  unfold OffBlocksDatetime.derive, OnBlocksDatetime.derive, get_first,
    get_last. fold named.
  split; [| split].
  - intros s. subst named. unfold get. rewrite filter_In.
    unfold matching. cbn [andb]. now rewrite String.eqb_eq.
  - intros ->. split; reflexivity.
  - intros Hn.
    destruct (earliest_some named Hn) as [first Hf].
    destruct (latest_some named Hn) as [last Hl].
    exists first, last. rewrite Hf, Hl.
    destruct (earliest_spec _ _ Hf) as [Hfi Hfm].
    destruct (latest_spec _ _ Hl) as [Hli Hlm].
    repeat split; auto.
    + exact (Hfm s H).
    + exact (Hlm s H).
Qed.

Lemma blocks_at_first_and_last_turning_on_ground_witness :
  OnBlocksDatetime.derive Example.doi
    (Example.node_of "Turning"
       [Example.section "Turning In Air" 10 20])
    (Example.attr "Start Datetime" {| timestamp := 0 |})
  = ([Commit None], inr tt).
Proof.
  apply (proj1 (proj2 (blocks_at_first_and_last_turning_on_ground
                         Example.doi
                         (Example.node_of "Turning"
                            [Example.section "Turning In Air" 10 20])
                         (Example.attr "Start Datetime"
                            {| timestamp := 0 |})))).
  reflexivity.
Defined.

(** ** The record of an approach *)

Section Records.
Import Approaches.
Variable api : api_handler.
Variable datetime_of_index : datetime_of_index_t.
Variable i : inputs.

Lemma both_true (a b : Z) :
  negb (truth a) || negb (truth b) = false -> a <> 0 /\ b <> 0.
Proof.
  unfold truth, truth_int. intros H. apply orb_false_iff in H.
  destruct H as [Ha Hb]. rewrite !negb_involutive in *.
  apply Z.eqb_neq in Ha, Hb. auto.
Qed.

Lemma derive_body_record acc a acc' :
  outcome (derive_body api datetime_of_index i acc a) = inr acc' ->
  acc' = acc
  \/ exists r lat lon ap,
       acc' = acc ++ [r]
       /\ _get_approach_type (section_slice a) (landing_hdg_kpvs i)
            (touch_and_gos i) (go_arounds i) = Some (type r)
       /\ approach_datetime r
          = datetime_of_index (attr_value (start_datetime i))
              (stop (section_slice a)) (frequency (approach_and_landing i))
       /\ _get_lat_lon (section_slice a) (landing_lat_kpvs i)
            (landing_lon_kpvs i) (approach_lat_kpvs i) (approach_lon_kpvs i)
          = (Some lat, Some lon)
       /\ lat <> 0 /\ lon <> 0
       /\ nearest_airport api lat lon = inr ap
       /\ airport r = airport_id ap.
Proof.
  unfold derive_body. run_rule.
  all: intros [= <-]; auto.
  all: right;
    match goal with
    | H : negb (truth ?a) || negb (truth ?b) = false |- _ =>
        destruct (both_true a b H)
    end;
    do 4 eexists; repeat split; eauto.
Qed.

End Records.

(** X17. Every record that the loop of the Approaches rule appends for an
    approach has the type that [_get_approach_type] gives the approach, the
    datetime of the stop, not the start, of its slice, and the [id] of the
    airport that the lookup returned for its position, a position whose
    latitude and longitude are both other than 0. *)
Theorem approach_record_fields :
  forall api doi (i : Approaches.inputs) acc a acc',
    outcome (Approaches.derive_body api doi i acc a) = inr acc' ->
    acc' = acc
    \/ exists r lat lon ap,
         acc' = acc ++ [r]
         /\ Approaches._get_approach_type (section_slice a)
              (Approaches.landing_hdg_kpvs i) (Approaches.touch_and_gos i)
              (Approaches.go_arounds i) = Some (Approaches.type r)
         /\ Approaches.approach_datetime r
            = doi (attr_value (Approaches.start_datetime i))
                (stop (section_slice a))
                (frequency (Approaches.approach_and_landing i))
         /\ Approaches._get_lat_lon (section_slice a)
              (Approaches.landing_lat_kpvs i) (Approaches.landing_lon_kpvs i)
              (Approaches.approach_lat_kpvs i)
              (Approaches.approach_lon_kpvs i)
            = (Some lat, Some lon)
         /\ lat <> 0 /\ lon <> 0
         /\ nearest_airport api lat lon = inr ap
         /\ Approaches.airport r = airport_id ap.
Proof. intros api doi i acc a acc'. apply derive_body_record. Qed.

Lemma approach_record_fields_witness :
  [{| Approaches.airport := 2383;
      Approaches.runway := Some "27L";
      Approaches.type := "LANDING";
      Approaches.approach_datetime := {| timestamp := 100000000 |} |}] = []
  \/ exists r lat lon ap,
       [{| Approaches.airport := 2383;
           Approaches.runway := Some "27L";
           Approaches.type := "LANDING";
           Approaches.approach_datetime := {| timestamp := 100000000 |} |}]
       = [] ++ [r]
       /\ Approaches._get_approach_type (section_slice Example.approach0)
            (Approaches.landing_hdg_kpvs (Example.landing_at 51 7 270))
            (Approaches.touch_and_gos (Example.landing_at 51 7 270))
            (Approaches.go_arounds (Example.landing_at 51 7 270))
          = Some (Approaches.type r)
       /\ Approaches.approach_datetime r
          = Example.doi
              (attr_value
                 (Approaches.start_datetime (Example.landing_at 51 7 270)))
              (stop (section_slice Example.approach0))
              (frequency
                 (Approaches.approach_and_landing
                    (Example.landing_at 51 7 270)))
       /\ Approaches._get_lat_lon (section_slice Example.approach0)
            (Approaches.landing_lat_kpvs (Example.landing_at 51 7 270))
            (Approaches.landing_lon_kpvs (Example.landing_at 51 7 270))
            (Approaches.approach_lat_kpvs (Example.landing_at 51 7 270))
            (Approaches.approach_lon_kpvs (Example.landing_at 51 7 270))
          = (Some lat, Some lon)
       /\ lat <> 0 /\ lon <> 0
       /\ nearest_airport Example.api_heathrow lat lon = inr ap
       /\ Approaches.airport r = airport_id ap.
Proof.
  apply (approach_record_fields Example.api_heathrow Example.doi
           (Example.landing_at 51 7 270) [] Example.approach0).
  reflexivity.
Defined.

(** ** A touch and go before the last touchdown *)

(** X18. On a flight with liftoffs and touchdowns whose first touchdown is
    not before the first liftoff, a touch and go changes nothing when every
    touch and go is before some touchdown: the flight type is then, as
    without any touch and go, the AFR type when that is FERRY,
    LINE_TRAINING, POSITIONINGTEST or TRAINING, and COMPLETE otherwise,
    committed without a warning. *)
Theorem touch_and_go_before_last_touchdown_is_ignored :
  forall (i : FlightType.inputs) los tds fl ft,
    FlightType.liftoffs i = Some los ->
    FlightType.touchdowns i = Some tds ->
    get_first los None None = Some fl ->
    get_first tds None None = Some ft ->
    ~ index ft < index fl ->
    (truth (FlightType.touch_and_gos i) = false
     \/ exists tgs td,
          FlightType.touch_and_gos i = Some tgs
          /\ In td (items tds)
          /\ forall tg, In tg (items tgs) -> index tg < index td) ->
    FlightType.derive i = ([Commit (complete_or_override i)], inr tt)
    /\ In (complete_or_override i)
         ["COMPLETE"; "FERRY"; "LINE_TRAINING"; "POSITIONINGTEST";
          "TRAINING"]
    /\ (forall t,
          afr_type_value i = Some t ->
          In t ["FERRY"; "LINE_TRAINING"; "POSITIONINGTEST"; "TRAINING"] ->
          complete_or_override i = t)
    /\ (afr_type_value i = None -> complete_or_override i = "COMPLETE").
Proof.
  intros i los tds fl ft Hlo Htd Hfl Hft Hord Htg.
  split; [| split; [apply complete_or_override_in | split]].
  - destruct Htg as [Htg | (tgs & td & Htgs & Htd' & Hbefore)].
    + now apply derive_complete_or_override
        with (los := los) (tds := tds) (fl := fl) (ft := ft).
    + rewrite (derive_both i los tds fl ft) by assumption.
      rewrite Htgs. unfold if_dep.
      destruct (truth tgs) eqn:Ht; [| reflexivity].
      destruct (get_last_some tds (get_first_truth _ _ Hft)) as [ltd Hltd].
      destruct (get_last_some tgs Ht) as [ltg Hltg].
      rewrite Hltd, Hltg. cbn [deref]. rewrite !bind_ret_l.
      rewrite get_last_all in Hltd, Hltg.
      apply latest_spec in Hltd, Hltg.
      destruct Hltd as [_ Hltd], Hltg as [Hltg _].
      specialize (Hltd _ Htd'). specialize (Hbefore _ Hltg).
      destruct (Z.leb_spec (index ltd) (index ltg)); [lia | reflexivity].
  - intros t Ht Hin. unfold complete_or_override. rewrite Ht.
    unfold FlightType.py_in, FlightType.afr_types.
    cbn [In] in Hin.
    destruct Hin as [<- | [<- | [<- | [<- | []]]]]; reflexivity.
  - intros Ht. unfold complete_or_override. now rewrite Ht.
Qed.

Lemma touch_and_go_before_last_touchdown_is_ignored_witness :
  FlightType.derive ExampleGround.touch_and_go_then_landing
  = ([Commit "FERRY"], inr tt).
Proof.
  refine (proj1 (touch_and_go_before_last_touchdown_is_ignored
                   ExampleGround.touch_and_go_then_landing
                   (Example.node_of "Liftoff" [Example.kti 100])
                   (Example.node_of "Touchdown"
                      [Example.kti 300; Example.kti 500])
                   (Example.kti 100) (Example.kti 300)
                   eq_refl eq_refl eq_refl eq_refl _ _)).
  - vm_compute. discriminate.
  - right.
    exists (Example.node_of "Touch And Go" [Example.kti 300]),
           (Example.kti 500).
    split; [reflexivity |]. split; [simpl; auto |].
    intros tg [<- | []]. reflexivity.
Defined.
